(** * calctermpy: the document evaluation engine of the calculator

    A shallow embedding of the engine of [src/core/calculator.py] (the
    current tree) and [old/calculator.py] (the old tree): the line
    classifier, the statement segmenter, the recalculation pass, the
    inspector's [delete_variable], and the result formatter, followed by the
    properties the design document states about them.  Around the engine:
    the editor's inline results and line number area, the history panel, the
    list of recent files, the library of custom functions and the
    inspector's other commands.

    Python text is modelled as [string] (characters are code points below
    256), the dictionaries [namespace], [variables] and [line_results] as
    finite maps, floats as binary64 values.  What belongs to the Python
    runtime rather than to the repository ([eval], [exec], [str] of a
    container) is an interface, [Python], of which [MiniPython] is a small
    executable instance. *)

From Stdlib Require Import ZArith String Ascii List DecimalString Lia.
From Stdlib Require Import Floats.PrimFloat Floats.SpecFloat Floats.FloatOps Floats.FloatAxioms.
From stdpp Require Import gmap strings.

Open Scope string_scope.
Open Scope list_scope.

(* ===================================================================== *)
(** ** Python's string methods *)
(* ===================================================================== *)

Module PyStr.

(** [str.isspace] on one character: the ASCII white space, the four
    separators 0x1c-0x1f, NEL and the no-break space. *)
Definition isspace (c : ascii) : bool :=
  let n := nat_of_ascii c in
  ((9 <=? n) && (n <=? 13) || (28 <=? n) && (n <=? 32)
   || (n =? 133) || (n =? 160))%nat.

Fixpoint lstrip (s : string) : string :=
  match s with
  | String c r => if isspace c then lstrip r else s
  | EmptyString => EmptyString
  end.

Fixpoint rstrip (s : string) : string :=
  match s with
  | EmptyString => EmptyString
  | String c r =>
      match rstrip r with
      | EmptyString => if isspace c then EmptyString else String c EmptyString
      | r' => String c r'
      end
  end.

(** [s.strip()] *)
Definition strip (s : string) : string := lstrip (rstrip s).

(** [s.startswith(p)] *)
Fixpoint startswith (p s : string) : bool :=
  match p, s with
  | EmptyString, _ => true
  | String a p', String b s' => Ascii.eqb a b && startswith p' s'
  | String _ _, EmptyString => false
  end.

(** [sub in s] *)
Fixpoint contains (sub s : string) : bool :=
  startswith sub s ||
  match s with
  | EmptyString => false
  | String _ r => contains sub r
  end.

(** [s.endswith(":")] and the like, for a one-character suffix. *)
Fixpoint endswith_char (c : ascii) (s : string) : bool :=
  match s with
  | EmptyString => false
  | String a EmptyString => Ascii.eqb a c
  | String _ r => endswith_char c r
  end.

(** [s.split(sep)] for a one-character separator: never an empty list. *)
Fixpoint split (sep : ascii) (s : string) : list string :=
  match s with
  | EmptyString => [EmptyString]
  | String c r =>
      if Ascii.eqb c sep then EmptyString :: split sep r
      else match split sep r with
           | h :: t => String c h :: t
           | [] => [String c EmptyString]
           end
  end.

(** [s.split(sep, 1)]: the text before the first [sep] and, when there is
    one, the text after it. *)
Fixpoint split1 (sep : ascii) (s : string) : string * option string :=
  match s with
  | EmptyString => (EmptyString, None)
  | String c r =>
      if Ascii.eqb c sep then (EmptyString, Some r)
      else let '(h, t) := split1 sep r in (String c h, t)
  end.

(** [sep.join(parts)] *)
Fixpoint join (sep : string) (parts : list string) : string :=
  match parts with
  | [] => EmptyString
  | [p] => p
  | p :: rest => p +:+ sep +:+ join sep rest
  end.

(** [s[:n]] *)
Fixpoint take (n : nat) (s : string) : string :=
  match n, s with
  | S n', String c r => String c (take n' r)
  | _, _ => EmptyString
  end.

(** [str(n)] for an integer. *)
Definition of_Z (n : Z) : string := NilZero.string_of_int (Z.to_int n).
Definition of_nat (n : nat) : string := NilZero.string_of_uint (Nat.to_uint n).

(** ["0" * n] *)
Fixpoint zeros (n : nat) : string :=
  match n with O => EmptyString | S n' => String "0" (zeros n') end.

Definition newline : ascii := ascii_of_nat 10.
Definition tab : ascii := ascii_of_nat 9.

(** [s.split(sep)[0]] for a separator of any length that is not empty: the
    text before the first occurrence of [sep], all of [s] when there is
    none. *)
Fixpoint split_first (sep s : string) : string :=
  if startswith sep s then EmptyString
  else match s with
       | EmptyString => EmptyString
       | String c r => String c (split_first sep r)
       end.

End PyStr.

(* ===================================================================== *)
(** ** Python's float formatting: the [e] and [g] presentation types *)
(* ===================================================================== *)

(** [format(x, ".{p}e")] and [format(x, ".{p}g")] print the correctly
    rounded decimal expansion of the exact binary value (ties to even).
    The value of a finite non-zero float is [m * 2^e]; all the arithmetic
    below is exact, on integers. *)
Module PyFloat.

(** The magnitude of a finite float as a fraction [num / den]. *)
Definition fraction (m : positive) (e : Z) : Z * Z :=
  if (0 <=? e)%Z then (Z.pos m * 2 ^ e, 1)%Z else (Z.pos m, 2 ^ (- e))%Z.

(** Number of decimal digits of a positive integer, minus one. *)
Fixpoint digits_minus_one (fuel : nat) (q : Z) : Z :=
  match fuel with
  | O => 0
  | S fuel' => if (q <? 10)%Z then 0%Z else (1 + digits_minus_one fuel' (q / 10))%Z
  end.

(** Least [j >= 1] with [num * 10^j >= den], for [num < den]. *)
Fixpoint scale_up (fuel : nat) (num den : Z) : Z :=
  match fuel with
  | O => 1
  | S fuel' =>
      if (den <=? num * 10)%Z then 1%Z else (1 + scale_up fuel' (num * 10) den)%Z
  end.

(** [floor (log10 (num / den))] for a positive fraction. *)
Definition decimal_exponent (num den : Z) : Z :=
  if (den <=? num)%Z
  then let q := (num / den)%Z in digits_minus_one (S (Z.to_nat (Z.log2 q))) q
  else (- scale_up 400 num den)%Z.

(** [num / den] rounded to the nearest integer, ties to even. *)
Definition round_half_even (num den : Z) : Z :=
  let q := (num / den)%Z in
  let r := (num mod den)%Z in
  match (2 * r ?= den)%Z with
  | Lt => q
  | Gt => (q + 1)%Z
  | Eq => if Z.even q then q else (q + 1)%Z
  end.

(** [num / den * 10^k], as a fraction. *)
Definition scale10 (num den k : Z) : Z * Z :=
  if (0 <=? k)%Z then (num * 10 ^ k, den)%Z else (num, den * 10 ^ (- k))%Z.

(** The [n] significant digits ([n >= 1]) of a positive fraction and its
    decimal exponent: [(N, x)] with [10^(n-1) <= N < 10^n] and
    [num / den ~ N * 10^(x - n + 1)]. *)
Definition round_digits (n : nat) (num den : Z) : Z * Z :=
  let x := decimal_exponent num den in
  let '(a, b) := scale10 num den (Z.of_nat n - 1 - x) in
  let N := round_half_even a b in
  if (10 ^ Z.of_nat n <=? N)%Z then ((N / 10)%Z, (x + 1)%Z) else (N, x).

(** The exponent suffix: a sign and at least two digits. *)
Definition exponent_text (x : Z) : string :=
  let a := Z.abs x in
  "e" +:+ (if (x <? 0)%Z then "-" else "+") +:+
  (if (a <? 10)%Z then "0" else "") +:+ PyStr.of_Z a.

Definition sign_text (s : bool) : string := if s then "-" else "".

(** [d.ddd]: the first digit, then the others after a point (nothing
    when there are no others). *)
Definition mantissa_text (digits : string) : string :=
  match digits with
  | String d EmptyString => String d EmptyString
  | String d rest => String d ("." +:+ rest)
  | EmptyString => EmptyString
  end.

(** Trailing zeros removed. *)
Fixpoint strip_zeros (s : string) : string :=
  match s with
  | EmptyString => EmptyString
  | String c r =>
      match strip_zeros r with
      | EmptyString => if Ascii.eqb c "0" then EmptyString else String c EmptyString
      | r' => String c r'
      end
  end.

Fixpoint drop (n : nat) (s : string) : string :=
  match n, s with
  | S n', String _ r => drop n' r
  | _, _ => s
  end.

(** [format(x, ".{p}e")]: one digit, [p] digits after the point, the
    exponent. *)
Definition format_e (p : nat) (x : float) : string :=
  match Prim2SF x with
  | S754_nan => "nan"
  | S754_infinity s => sign_text s +:+ "inf"
  | S754_zero s =>
      sign_text s +:+ mantissa_text (PyStr.zeros (S p)) +:+ exponent_text 0
  | S754_finite s m e =>
      let '(num, den) := fraction m e in
      let '(N, x) := round_digits (S p) num den in
      sign_text s +:+ mantissa_text (PyStr.of_Z N) +:+ exponent_text x
  end.

(** [format(x, ".{p}g")]: [P] significant digits ([P = 1] when [p = 0]),
    trailing zeros removed; fixed notation when the exponent [x] of the
    rounded value satisfies [-4 <= x < P], scientific otherwise. *)
Definition format_g (p : nat) (x : float) : string :=
  let P := Nat.max 1 p in
  match Prim2SF x with
  | S754_nan => "nan"
  | S754_infinity s => sign_text s +:+ "inf"
  | S754_zero s => sign_text s +:+ "0"
  | S754_finite s m e =>
      let '(num, den) := fraction m e in
      let '(N, x) := round_digits P num den in
      let digits := strip_zeros (PyStr.of_Z N) in
      sign_text s +:+
      (if ((-4 <=? x) && (x <? Z.of_nat P))%Z
       then if (x <? 0)%Z
            then "0." +:+ PyStr.zeros (Z.to_nat (- x - 1)) +:+ digits
            else let k := S (Z.to_nat x) in
                 let len := String.length digits in
                 if (len <=? k)%nat
                 then digits +:+ PyStr.zeros (k - len)
                 else PyStr.take k digits +:+ "." +:+ drop k digits
       else mantissa_text digits +:+ exponent_text x)
  end.

End PyFloat.

(* ===================================================================== *)
(** ** Values, and the interface to the Python runtime *)
(* ===================================================================== *)

Set Warnings "-inexact-float,-register-all".

(** The values an evaluation can yield.  [VObject] stands for an object of
    any other type that is not iterable (a module, a library function, a
    SymPy expression ...), known by the text [str()] gives for it;
    [VFunction] for a function made by a [def] statement. *)
Inductive value : Type :=
| VNone
| VBool (b : bool)
| VInt (n : Z)
| VFloat (x : float)
| VComplex (re im : float)
| VStr (s : string)
| VList (items : list value)
| VTuple (items : list value)
| VFunction (name param body : string)
| VObject (text : string).

(** What a call into the interpreter gives back: a value, or an exception
    caught by [except Exception as e], known by [str(e)]. *)
Inductive outcome (A : Type) : Type :=
| Ok (v : A)
| Raised (message : string).
Arguments Ok {A} v.
Arguments Raised {A} message.

(** A dictionary from names to values: [namespace], [variables],
    [local_ns]. *)
Abbreviation bindings := (gmap string value).

(** The builtins the engine calls.
    - [py_eval src locals] is [eval(src, {"__builtins__": {}}, locals)];
    - [py_exec src globals] is [compile(src, '<calculator>', 'exec')]
      followed by [exec(code, globals, local_ns)] on a fresh [local_ns],
      and yields that [local_ns];
    - [py_eval_in src globals locals] is [eval(src, globals, locals)];
    - [py_str v] is [str(v)] for the values whose text the runtime decides:
      a list or a tuple (the [repr] of its elements) and a function (its
      address).
    Evaluation is taken as a function of the text and the namespaces: it
    does not write to the namespaces it is given, and every exception it
    raises is an [Exception]. *)
Class Python : Type := {
  py_eval : string -> bindings -> outcome value;
  py_exec : string -> bindings -> outcome bindings;
  py_eval_in : string -> bindings -> bindings -> outcome value;
  py_str : value -> string;
}.

(** [str(result)] on a boolean, and on the objects that reach the
    formatter's last branch. *)
Definition str_bool (b : bool) : string := if b then "True" else "False".

Definition str_object `{Python} (v : value) : string :=
  match v with
  | VStr s => s
  | VObject text => text
  | VNone => "None"
  | VBool b => str_bool b
  | VInt n => PyStr.of_Z n
  | _ => py_str v
  end.

(** [result_str[:200] + "..."] when [len(result_str) > 200]. *)
Definition truncate (result_str : string) : string :=
  if (200 <? String.length result_str)%nat
  then PyStr.take 200 result_str +:+ "..."
  else result_str.

(** The test [abs(result) > 1e10 or (abs(result) < 1e-4 and result != 0)]. *)
Definition wants_scientific (x : float) : bool :=
  (1e10 <? abs x)%float || ((abs x <? 1e-4)%float && negb (x =? 0)%float).

(** The float branch, shared by both trees. *)
Definition format_float (precision : nat) (x : float) : string :=
  if wants_scientific x then PyFloat.format_e precision x
  else PyFloat.format_g precision x.

(** The complex branch, literally the same in both trees;
    [self.format_result(result.real)] is the float branch, [result.real]
    being a float. *)
Definition format_complex (precision : nat) (re im : float) : string :=
  if (im =? 0)%float then format_float precision re
  else if (re =? 0)%float then PyFloat.format_g precision im +:+ "j"
  else "(" +:+ PyFloat.format_g precision re
       +:+ (if (0 <=? im)%float then "+" else "")
       +:+ PyFloat.format_g precision im +:+ "j)".

(** ["\n".join(lines)]: the text of a document given by its lines. *)
Definition document (lines : list string) : string :=
  PyStr.join (String PyStr.newline "") lines.

(** The operators whose presence keeps a line from being an assignment. *)
Definition comparison_operators : list string := ["=="; "!="; "<="; ">="].

(** [any(op in text for op in ['==', '!=', '<=', '>='])] *)
Definition any_operator_in (text : string) : bool :=
  existsb (fun op => PyStr.contains op text) comparison_operators.

(** [not text.strip() or text.strip().startswith('#')] *)
Definition is_blank_or_comment (text : string) : bool :=
  let stripped := PyStr.strip text in
  String.eqb stripped "" || PyStr.startswith "#" stripped.

(** [f"Error: {str(e)}"] *)
Definition error_msg (message : string) : string := "Error: " +:+ message.

(** Unpacking [a, b = line.split('=', 1)] when the line has no [=]. *)
Definition unpack_error : string :=
  "not enough values to unpack (expected 2, got 1)".

(* ===================================================================== *)
(** ** The current tree: [src/core/calculator.py] *)
(* ===================================================================== *)

Module Current.

(** The fields of [ScientificCalculator] the engine reads and writes. *)
Record calculator : Type := {
  base_namespace : bindings;
  namespace : bindings;
  variables : bindings;
  line_results : gmap nat string;
  decimal_precision : nat;
}.

(** [format_result]: [None], booleans before numbers, integers, floats,
    complex numbers, then [str] cut at 200 characters.  The SymPy branch
    returns the same cut [str] as the last branch and only applies to
    objects of SymPy's classes, which are [VObject]s here. *)
Definition format_result `{Python} (precision : nat) (result : value) : string :=
  match result with
  | VNone => "None"
  | VBool b => str_bool b
  | VInt n => PyStr.of_Z n
  | VFloat x => format_float precision x
  | VComplex re im => format_complex precision re im
  | _ => truncate (str_object result)
  end.

Definition set_line_result (s : calculator) (i : nat) (text : string) : calculator :=
  {| base_namespace := base_namespace s;
     namespace := namespace s;
     variables := variables s;
     line_results := <[i := text]> (line_results s);
     decimal_precision := decimal_precision s |}.

(** [self.variables[var_name] = result; self.namespace[var_name] = result;
    self.line_results[i] = f"{var_name} = {self.format_result(result)}"] *)
Definition assign `{Python} (s : calculator) (i : nat) (var_name : string)
    (result : value) : calculator :=
  {| base_namespace := base_namespace s;
     namespace := <[var_name := result]> (namespace s);
     variables := <[var_name := result]> (variables s);
     line_results :=
       <[i := var_name +:+ " = " +:+ format_result (decimal_precision s) result]>
         (line_results s);
     decimal_precision := decimal_precision s |}.

(** The guard of the assignment branch:
    ['=' in line and not any(op in line for op in ['==','!=','<=','>='])]. *)
Definition is_assignment (line : string) : bool :=
  PyStr.contains "=" line && negb (any_operator_in line).

(** The body of the loop of [recalculate_changed_lines] for line [i]. *)
Definition evaluate_line `{Python} (s : calculator) (i : nat) (line : string)
    : calculator :=
  if is_blank_or_comment line then s
  else if is_assignment line then
    match PyStr.split1 "=" line with
    | (lhs, Some rhs) =>
        let var_name := PyStr.strip lhs in
        let expression := PyStr.strip rhs in
        match py_eval expression (namespace s) with
        | Ok result => assign s i var_name result
        | Raised e => set_line_result s i (error_msg e)
        end
    | (_, None) => set_line_result s i (error_msg unpack_error)
    end
  else
    match py_eval line (namespace s) with
    | Ok VNone => s
    | Ok result =>
        set_line_result s i (format_result (decimal_precision s) result)
    | Raised e => set_line_result s i (error_msg e)
    end.

(** [for i, line in enumerate(lines)], from index [i] on. *)
Fixpoint run_lines `{Python} (i : nat) (lines : list string) (s : calculator)
    : calculator :=
  match lines with
  | [] => s
  | line :: rest => run_lines (S i) rest (evaluate_line s i line)
  end.

(** The state the pass starts from: the namespace is a copy of the base
    one, [variables] and [line_results] are cleared. *)
Definition reset (s : calculator) : calculator :=
  {| base_namespace := base_namespace s;
     namespace := base_namespace s;
     variables := ∅;
     line_results := ∅;
     decimal_precision := decimal_precision s |}.

(** The pass over the lines of the document. *)
Definition recalculate_lines `{Python} (s : calculator) (lines : list string)
    : calculator :=
  run_lines 0 lines (reset s).

(** [recalculate_changed_lines(editor)], on the editor's text. *)
Definition recalculate_changed_lines `{Python} (s : calculator)
    (current_text : string) : calculator :=
  recalculate_lines s (PyStr.split PyStr.newline current_text).

(** The message of the exception the [try] block catches when [line] is
    evaluated in state [s], if it raises one. *)
Definition failure `{Python} (s : calculator) (line : string) : option string :=
  if is_blank_or_comment line then None
  else if is_assignment line then
    match PyStr.split1 "=" line with
    | (_, Some rhs) =>
        match py_eval (PyStr.strip rhs) (namespace s) with
        | Raised e => Some e
        | Ok _ => None
        end
    | (_, None) => Some unpack_error
    end
  else
    match py_eval line (namespace s) with
    | Raised e => Some e
    | Ok _ => None
    end.

(** [recalculate_all()]: on the current editor, when there is one. *)
Definition recalculate_all `{Python} (s : calculator) (editor : option string)
    : calculator :=
  match editor with
  | Some current_text => recalculate_changed_lines s current_text
  | None => s
  end.

(** [delete_variable(var_name)] *)
Definition delete_variable `{Python} (s : calculator) (var_name : string)
    (editor : option string) : calculator :=
  match variables s !! var_name with
  | Some _ =>
      recalculate_all
        {| base_namespace := base_namespace s;
           namespace := delete var_name (namespace s);
           variables := delete var_name (variables s);
           line_results := line_results s;
           decimal_precision := decimal_precision s |}
        editor
  | None => s
  end.

End Current.

(* ===================================================================== *)
(** ** The old tree: [old/calculator.py] *)
(* ===================================================================== *)

Module Old.

(** The fields of [ScientificCalculator] the engine reads and writes;
    [history] is what [history_widget.add_calculation] has been given. *)
Record calculator : Type := {
  base_namespace : bindings;
  namespace : bindings;
  variables : bindings;
  line_results : gmap nat string;
  decimal_precision : nat;
  history : list (string * string);
}.

(** One entry of the list [process_multiline_statements] returns. *)
Record statement : Type := {
  line_num : nat;
  code : string;
  is_multiline : bool;
}.

(** The locals of [process_multiline_statements]. *)
Record segmenter : Type := {
  processed : list statement;
  current_block : string;
  block_start : nat;
  indent_level : nat;
}.

Definition block_keywords : list string :=
  ["def "; "class "; "if "; "for "; "while "; "try:"; "except"; "finally:";
   "with "; "elif "; "else:"].

(** The keywords after which the last line of a block is not evaluated. *)
Definition statement_keywords : list string :=
  block_keywords ++ ["return "; "yield "; "import "; "from "].

Definition starts_with_any (keywords : list string) (text : string) : bool :=
  existsb (fun kw => PyStr.startswith kw text) keywords.

Definition nonempty (text : string) : bool := negb (String.eqb text "").

Definition add_line (block line : string) : string :=
  block +:+ line +:+ String PyStr.newline "".

Definition block_statement (start : nat) (block : string) : statement :=
  {| line_num := start; code := PyStr.strip block; is_multiline := true |}.

Definition single_statement (i : nat) (line : string) : statement :=
  {| line_num := i; code := line; is_multiline := false |}.

(** The body of the loop of [process_multiline_statements] for line [i]. *)
Definition segment_line (st : segmenter) (i : nat) (line : string) : segmenter :=
  let stripped := PyStr.strip line in
  if String.eqb stripped "" || PyStr.startswith "#" stripped then
    if nonempty (current_block st) then
      {| processed := processed st;
         current_block := add_line (current_block st) line;
         block_start := block_start st;
         indent_level := indent_level st |}
    else
      {| processed := processed st ++ [single_statement i line];
         current_block := current_block st;
         block_start := block_start st;
         indent_level := indent_level st |}
  else if PyStr.endswith_char ":" stripped
          || starts_with_any block_keywords stripped
          || (0 <? indent_level st)%nat then
    let start := if nonempty (current_block st) then block_start st else i in
    let block := add_line (current_block st) line in
    let level :=
      if PyStr.endswith_char ":" stripped then S (indent_level st)
      else if PyStr.startswith "    " line
              || PyStr.startswith (String PyStr.tab "") line
           then indent_level st
           else Nat.pred (indent_level st) in
    if (level =? 0)%nat && negb (PyStr.endswith_char ":" stripped) then
      {| processed := processed st ++ [block_statement start block];
         current_block := "";
         block_start := start;
         indent_level := level |}
    else
      {| processed := processed st;
         current_block := block;
         block_start := start;
         indent_level := level |}
  else
    let flushed :=
      if nonempty (current_block st)
      then processed st ++ [block_statement (block_start st) (current_block st)]
      else processed st in
    {| processed := flushed ++ [single_statement i line];
       current_block := "";
       block_start := block_start st;
       indent_level := indent_level st |}.

Fixpoint segment_lines (i : nat) (lines : list string) (st : segmenter)
    : segmenter :=
  match lines with
  | [] => st
  | line :: rest => segment_lines (S i) rest (segment_line st i line)
  end.

(** [process_multiline_statements(lines)] *)
Definition process_multiline_statements (lines : list string) : list statement :=
  let st :=
    segment_lines 0 lines
      {| processed := []; current_block := ""; block_start := 0;
         indent_level := 0 |} in
  if nonempty (current_block st)
  then processed st ++ [block_statement (block_start st) (current_block st)]
  else processed st.

(** [format_result], with its branch for iterables that are not strings.
    The elements are formatted before the first three are kept, which is
    [format_result] mapped over [result[:3]]. *)
Fixpoint format_result `{Python} (precision : nat) (result : value) : string :=
  let format_items (items : list value) : string :=
    let formatted := map (format_result precision) items in
    if (10 <? length items)%nat
    then "[" +:+ PyStr.join ", " (firstn 3 formatted)
         +:+ ", ... (" +:+ PyStr.of_nat (length items) +:+ " items)]"
    else "[" +:+ PyStr.join ", " formatted +:+ "]" in
  match result with
  | VNone => "None"
  | VBool b => str_bool b
  | VInt n => PyStr.of_Z n
  | VFloat x => format_float precision x
  | VComplex re im => format_complex precision re im
  | VList items => format_items items
  | VTuple items => format_items items
  | _ => truncate (str_object result)
  end.

Definition set_line_result (s : calculator) (i : nat) (text : string) : calculator :=
  {| base_namespace := base_namespace s;
     namespace := namespace s;
     variables := variables s;
     line_results := <[i := text]> (line_results s);
     decimal_precision := decimal_precision s;
     history := history s |}.

(** [self.line_results[line_num] = text] followed by
    [self.history_widget.add_calculation(code_block, formatted_result)]. *)
Definition record_result (s : calculator) (i : nat) (text code_block formatted : string)
    : calculator :=
  {| base_namespace := base_namespace s;
     namespace := namespace s;
     variables := variables s;
     line_results := <[i := text]> (line_results s);
     decimal_precision := decimal_precision s;
     history := history s ++ [(code_block, formatted)] |}.

(** [self.namespace.update(self.variables)] *)
Definition update_namespace (s : calculator) : calculator :=
  {| base_namespace := base_namespace s;
     namespace := variables s ∪ namespace s;
     variables := variables s;
     line_results := line_results s;
     decimal_precision := decimal_precision s;
     history := history s |}.

(** [self.variables.update(local_ns)] *)
Definition update_variables (s : calculator) (local_ns : bindings) : calculator :=
  {| base_namespace := base_namespace s;
     namespace := namespace s;
     variables := local_ns ∪ variables s;
     line_results := line_results s;
     decimal_precision := decimal_precision s;
     history := history s |}.

Definition bind (s : calculator) (var_name : string) (result : value) : calculator :=
  {| base_namespace := base_namespace s;
     namespace := <[var_name := result]> (namespace s);
     variables := <[var_name := result]> (variables s);
     line_results := line_results s;
     decimal_precision := decimal_precision s;
     history := history s |}.

(** [code_block.strip().split('\n')[-1].strip()] *)
Definition last_line (code_block : string) : string :=
  PyStr.strip (List.last (PyStr.split PyStr.newline (PyStr.strip code_block)) "").

(** [execute_multiline_code(code_block)]: the state it leaves and the
    value it returns or the exception it lets through.  A failure of the
    evaluation of the last line is swallowed by the bare [except]. *)
Definition execute_multiline_code `{Python} (s : calculator) (code_block : string)
    : calculator * outcome value :=
  match py_exec code_block (namespace s) with
  | Raised e => (s, Raised e)
  | Ok local_ns =>
      let s' := update_variables s local_ns in
      let last := last_line code_block in
      if nonempty last && negb (starts_with_any statement_keywords last) then
        match py_eval_in last (namespace s) local_ns with
        | Ok result => (s', Ok result)
        | Raised _ => (s', Ok VNone)
        end
      else (s', Ok VNone)
  end.

(** The guard of the assignment branch: ['=' in code_block and not
    any(op in code_block.split('=')[0] for op in ['==','!=','<=','>='])]. *)
Definition is_assignment (code_block : string) : bool :=
  PyStr.contains "=" code_block
  && negb (any_operator_in (fst (PyStr.split1 "=" code_block))).

(** The body of the loop of [recalculate_changed_lines] for one item. *)
Definition evaluate_statement `{Python} (s : calculator) (item : statement)
    : calculator :=
  let code_block := code item in
  if is_blank_or_comment code_block then s
  else
    let s := update_namespace s in
    if is_multiline item then
      match execute_multiline_code s code_block with
      | (s', Ok VNone) => set_line_result s' (line_num item) "executed"
      | (s', Ok result) =>
          let formatted := format_result (decimal_precision s') result in
          record_result s' (line_num item) formatted code_block formatted
      | (s', Raised e) => set_line_result s' (line_num item) (error_msg e)
      end
    else if is_assignment code_block then
      match PyStr.split1 "=" code_block with
      | (lhs, Some rhs) =>
          let var_name := PyStr.strip lhs in
          let var_expression := PyStr.strip rhs in
          match py_eval var_expression (namespace s) with
          | Ok result =>
              let formatted := format_result (decimal_precision s) result in
              record_result (bind s var_name result) (line_num item)
                (var_name +:+ " = " +:+ formatted) code_block formatted
          | Raised e => set_line_result s (line_num item) (error_msg e)
          end
      | (_, None) => set_line_result s (line_num item) (error_msg unpack_error)
      end
    else
      match py_eval code_block (namespace s) with
      | Ok result =>
          let formatted := format_result (decimal_precision s) result in
          record_result s (line_num item) formatted code_block formatted
      | Raised e => set_line_result s (line_num item) (error_msg e)
      end.

(** [for item in processed_lines] *)
Definition run_statements `{Python} (items : list statement) (s : calculator)
    : calculator :=
  fold_left evaluate_statement items s.

Definition reset (s : calculator) : calculator :=
  {| base_namespace := base_namespace s;
     namespace := base_namespace s;
     variables := ∅;
     line_results := ∅;
     decimal_precision := decimal_precision s;
     history := history s |}.

(** The pass over the lines of the document. *)
Definition recalculate_lines `{Python} (s : calculator) (lines : list string)
    : calculator :=
  run_statements (process_multiline_statements lines) (reset s).

(** [recalculate_changed_lines(editor)], on the editor's text. *)
Definition recalculate_changed_lines `{Python} (s : calculator)
    (current_text : string) : calculator :=
  recalculate_lines s (PyStr.split PyStr.newline current_text).

(** The message of the exception the [try] block catches when [item] is
    evaluated in state [s] (the namespace already updated), if it raises
    one. *)
Definition failure `{Python} (s : calculator) (item : statement) : option string :=
  if is_blank_or_comment (code item) then None
  else if is_multiline item then
    match py_exec (code item) (namespace s) with
    | Raised e => Some e
    | Ok _ => None
    end
  else if is_assignment (code item) then
    match PyStr.split1 "=" (code item) with
    | (_, Some rhs) =>
        match py_eval (PyStr.strip rhs) (namespace s) with
        | Raised e => Some e
        | Ok _ => None
        end
    | (_, None) => Some unpack_error
    end
  else
    match py_eval (code item) (namespace s) with
    | Raised e => Some e
    | Ok _ => None
    end.

Definition recalculate_all `{Python} (s : calculator) (editor : option string)
    : calculator :=
  match editor with
  | Some current_text => recalculate_changed_lines s current_text
  | None => s
  end.

(** [delete_variable(var_name)] *)
Definition delete_variable `{Python} (s : calculator) (var_name : string)
    (editor : option string) : calculator :=
  match variables s !! var_name with
  | Some _ =>
      recalculate_all
        {| base_namespace := base_namespace s;
           namespace := delete var_name (namespace s);
           variables := delete var_name (variables s);
           line_results := line_results s;
           decimal_precision := decimal_precision s;
           history := history s |}
        editor
  | None => s
  end.

End Old.

(* ===================================================================== *)
(** ** A small executable instance of the runtime *)
(* ===================================================================== *)

(** Enough of Python to run the documents the design document quotes:
    integer arithmetic with [+], [-], [*] and parentheses, the constants
    [None], [True] and [False], names, calls of one-argument functions,
    and, for blocks, [def] with a [return] body, assignments and expression
    statements.  Anything else is a syntax error. *)
Module MiniPython.

Inductive token : Type :=
| TWord (w : string)
| TSym (c : ascii).

Definition is_digit (c : ascii) : bool :=
  let n := nat_of_ascii c in ((48 <=? n) && (n <=? 57))%nat.

Definition is_word_char (c : ascii) : bool :=
  let n := nat_of_ascii c in
  is_digit c || ((65 <=? n) && (n <=? 90) || (97 <=? n) && (n <=? 122)
                 || (n =? 95))%nat.

Definition is_symbol (c : ascii) : bool :=
  existsb (Ascii.eqb c) ["+"; "-"; "*"; "("; ")"; "="; ":"]%char.

(** The tokens of a text, and whether the first one is a word that starts
    at the first character. *)
Fixpoint lex (s : string) : option (list token * bool) :=
  match s with
  | EmptyString => Some ([], false)
  | String c r =>
      match lex r with
      | None => None
      | Some (ts, adjoining) =>
          if is_word_char c then
            match ts, adjoining with
            | TWord w :: ts', true => Some (TWord (String c w) :: ts', true)
            | _, _ => Some (TWord (String c "") :: ts, true)
            end
          else if PyStr.isspace c then Some (ts, false)
          else if is_symbol c then Some (TSym c :: ts, false)
          else None
      end
  end.

Inductive expr : Type :=
| ENum (n : Z)
| ENone
| EBool (b : bool)
| EName (x : string)
| EBin (op : ascii) (a b : expr)
| ECall (f : string) (arg : expr).

(** The integer a word of digits denotes. *)
Fixpoint number_of (w : string) (acc : Z) : option Z :=
  match w with
  | EmptyString => Some acc
  | String c r =>
      if is_digit c
      then number_of r (10 * acc + Z.of_nat (nat_of_ascii c - 48))%Z
      else None
  end.

Definition starts_with_digit (w : string) : bool :=
  match w with String c _ => is_digit c | EmptyString => false end.

Definition word_expr (w : string) : option expr :=
  if starts_with_digit w then option_map ENum (number_of w 0)
  else if String.eqb w "None" then Some ENone
  else if String.eqb w "True" then Some (EBool true)
  else if String.eqb w "False" then Some (EBool false)
  else Some (EName w).

Inductive level : Type := Sum | Product | Atom.

Definition operator_at (l : level) (c : ascii) : bool :=
  match l with
  | Sum => Ascii.eqb c "+" || Ascii.eqb c "-"
  | Product => Ascii.eqb c "*"
  | Atom => false
  end.

Definition next_level (l : level) : level :=
  match l with Sum => Product | _ => Atom end.

(** Recursive descent: [parse] reads one operand of the level, [parse_tail]
    the operators of the level that follow it, to the left. *)
Fixpoint parse (fuel : nat) (l : level) (ts : list token)
    : option (expr * list token) :=
  match fuel with
  | O => None
  | S fuel' =>
      match l with
      | Atom =>
          match ts with
          | TWord w :: TSym "(" :: rest =>
              if starts_with_digit w then None
              else match parse fuel' Sum rest with
                   | Some (arg, TSym ")" :: rest') => Some (ECall w arg, rest')
                   | _ => None
                   end
          | TWord w :: rest =>
              match word_expr w with
              | Some e => Some (e, rest)
              | None => None
              end
          | TSym "(" :: rest =>
              match parse fuel' Sum rest with
              | Some (e, TSym ")" :: rest') => Some (e, rest')
              | _ => None
              end
          | _ => None
          end
      | _ =>
          match parse fuel' (next_level l) ts with
          | Some (lhs, rest) => parse_tail fuel' l lhs rest
          | None => None
          end
      end
  end
with parse_tail (fuel : nat) (l : level) (lhs : expr) (ts : list token)
    : option (expr * list token) :=
  match fuel with
  | O => None
  | S fuel' =>
      match ts with
      | TSym c :: rest =>
          if operator_at l c then
            match parse fuel' (next_level l) rest with
            | Some (rhs, rest') => parse_tail fuel' l (EBin c lhs rhs) rest'
            | None => None
            end
          else Some (lhs, ts)
      | _ => Some (lhs, ts)
      end
  end.

Definition parse_tokens (ts : list token) : option expr :=
  match parse (4 * length ts + 4) Sum ts with
  | Some (e, []) => Some e
  | _ => None
  end.

Definition parse_expression (src : string) : option expr :=
  match lex src with
  | Some (ts, _) => parse_tokens ts
  | None => None
  end.

(** [str(e)] for the [SyntaxError] of [eval]. *)
Definition syntax_error : string := "invalid syntax (<string>, line 1)".

Definition name_error (x : string) : string :=
  "name '" +:+ x +:+ "' is not defined".

Definition arithmetic (op : ascii) (a b : value) : outcome value :=
  match a, b with
  | VInt x, VInt y =>
      if Ascii.eqb op "+" then Ok (VInt (x + y))
      else if Ascii.eqb op "-" then Ok (VInt (x - y))
      else Ok (VInt (x * y))
  | _, _ => Raised "unsupported operand type(s)"
  end.

(** Evaluation: names are read in [scope]; the body of a called function
    sees its argument and [fglobals]. *)
Fixpoint eval_expr (fuel : nat) (fglobals scope : bindings) (e : expr)
    : outcome value :=
  match fuel with
  | O => Raised "maximum recursion depth exceeded"
  | S fuel' =>
      match e with
      | ENum n => Ok (VInt n)
      | ENone => Ok VNone
      | EBool b => Ok (VBool b)
      | EName x =>
          match scope !! x with
          | Some v => Ok v
          | None => Raised (name_error x)
          end
      | EBin op a b =>
          match eval_expr fuel' fglobals scope a with
          | Ok va =>
              match eval_expr fuel' fglobals scope b with
              | Ok vb => arithmetic op va vb
              | Raised m => Raised m
              end
          | Raised m => Raised m
          end
      | ECall f arg =>
          match scope !! f with
          | Some (VFunction _ param body) =>
              match eval_expr fuel' fglobals scope arg with
              | Ok v =>
                  match parse_expression body with
                  | Some e' =>
                      eval_expr fuel' fglobals (<[param := v]> fglobals) e'
                  | None => Raised syntax_error
                  end
              | Raised m => Raised m
              end
          | Some _ => Raised "object is not callable"
          | None => Raised (name_error f)
          end
      end
  end.

Definition depth : nat := 1000.

(** [eval(src, {"__builtins__": {}}, locals)] *)
Definition eval (src : string) (locals : bindings) : outcome value :=
  match parse_expression src with
  | Some e => eval_expr depth locals locals e
  | None => Raised syntax_error
  end.

(** [eval(src, globals, locals)] *)
Definition eval_in (src : string) (globals locals : bindings) : outcome value :=
  match parse_expression src with
  | Some e => eval_expr depth globals (locals ∪ globals) e
  | None => Raised syntax_error
  end.

(** The statements of a block, run in order on the locals. *)
Fixpoint exec_lines (fuel : nat) (lines : list string) (globals locals : bindings)
    : outcome bindings :=
  match fuel, lines with
  | _, [] => Ok locals
  | O, _ => Raised "invalid syntax"
  | S fuel', line :: rest =>
      if is_blank_or_comment line then exec_lines fuel' rest globals locals
      else
        match lex line with
        | Some ([TWord "def"; TWord f; TSym "("; TWord param; TSym ")"; TSym ":"], _) =>
            match rest with
            | body :: rest' =>
                let stripped := PyStr.strip body in
                if PyStr.startswith "    return " body then
                  exec_lines fuel' rest' globals
                    (<[f := VFunction f param (PyFloat.drop 7 stripped)]> locals)
                else Raised "invalid syntax"
            | [] => Raised "expected an indented block"
            end
        | Some (TWord x :: TSym "=" :: ts, _) =>
            match parse_tokens ts with
            | Some e =>
                match eval_expr depth globals (locals ∪ globals) e with
                | Ok v => exec_lines fuel' rest globals (<[x := v]> locals)
                | Raised m => Raised m
                end
            | None => Raised "invalid syntax"
            end
        | Some (ts, _) =>
            match parse_tokens ts with
            | Some e =>
                match eval_expr depth globals (locals ∪ globals) e with
                | Ok _ => exec_lines fuel' rest globals locals
                | Raised m => Raised m
                end
            | None => Raised "invalid syntax"
            end
        | None => Raised "invalid syntax"
        end
  end.

(** [exec(compile(src, '<calculator>', 'exec'), globals, {})] *)
Definition exec (src : string) (globals : bindings) : outcome bindings :=
  let lines := PyStr.split PyStr.newline src in
  exec_lines (length lines) lines globals ∅.

(** [str] of a container and of its elements: exact on lists of [None],
    booleans and integers, an approximation elsewhere (a float is printed
    with 17 significant digits, a function without its address). *)
Fixpoint repr (v : value) : string :=
  match v with
  | VNone => "None"
  | VBool b => str_bool b
  | VInt n => PyStr.of_Z n
  | VFloat x => PyFloat.format_g 17 x
  | VComplex re im =>
      "(" +:+ PyFloat.format_g 17 re +:+ "+" +:+ PyFloat.format_g 17 im +:+ "j)"
  | VStr s => "'" +:+ s +:+ "'"
  | VList items => "[" +:+ PyStr.join ", " (map repr items) +:+ "]"
  | VTuple items => "(" +:+ PyStr.join ", " (map repr items) +:+ ")"
  | VFunction name _ _ => "<function " +:+ name +:+ ">"
  | VObject text => text
  end.

#[export] Instance runtime : Python := {
  py_eval := eval;
  py_exec := exec;
  py_eval_in := eval_in;
  py_str := repr;
}.

End MiniPython.


(* ===================================================================== *)
(** ** The code editor: [src/widgets/code_editor.py] *)
(* ===================================================================== *)

Module CodeEditor.

(** The loop of [line_number_area_width], [while max_block >= 10:
    max_block //= 10; digits += 1], run for at most [fuel] tests of its
    condition. *)
Fixpoint count_digits (fuel max_block digits : nat) : option nat :=
  match fuel with
  | O => None
  | S fuel' =>
      if (10 <=? max_block)%nat
      then count_digits fuel' (max_block / 10)%nat (S digits)
      else Some digits
  end.

(** [line_number_area_width()], given [self.blockCount()] and
    [self.fontMetrics().horizontalAdvance('9')]. *)
Definition line_number_area_width (fuel block_count advance : nat) : option nat :=
  match count_digits fuel (Nat.max 1 block_count) 1 with
  | Some digits => Some (10 + advance * digits)%nat
  | None => None
  end.

(** [set_line_result(line_number, result)] and [clear_line_results()], on
    the editor's own [line_results]. *)
Definition set_line_result (line_results : gmap nat string) (line_number : nat)
    (result : string) : gmap nat string :=
  <[line_number := result]> line_results.

Definition clear_line_results (line_results : gmap nat string) : gmap nat string :=
  ∅.

(** What [paintEvent] draws beside the block [block_number], if anything.
    [visible] is [block.isVisible() and bottom >= event.rect().top()] and
    [fits] is [result_x < self.viewport().width() - 200]. *)
Definition drawn_text (line_results : gmap nat string) (block_number : nat)
    (visible fits : bool) : option string :=
  if visible then
    match line_results !! (block_number + 1)%nat with
    | Some result => if fits then Some (" = " +:+ result) else None
    | None => None
    end
  else None.

End CodeEditor.

(** [update_inline_results(editor)], the same in both trees: the editor's
    results are cleared, then every entry of the calculator's
    [line_results] is set one line further down.  The entries are written
    under distinct keys, so the order in which the dictionary is walked
    does not show in the outcome. *)
Definition update_inline_results (line_results editor : gmap nat string)
    : gmap nat string :=
  map_fold
    (fun line_num result editor =>
       CodeEditor.set_line_result editor (line_num + 1)%nat result)
    (CodeEditor.clear_line_results editor) line_results.

(* ===================================================================== *)
(** ** The history panel: [src/panels/history_panel.py] *)
(* ===================================================================== *)

Module HistoryPanel.

Record history_item : Type := {
  expression : string;
  result : string;
  timestamp : Z;
}.

(** [self.history], and the rows of [self.history_list]: the text of each
    row and the item stored under [UserRole]. *)
Record panel : Type := {
  history : list history_item;
  history_list : list (string * history_item);
}.

(** The text of a row: [f"{expression} = {result}"], cut to
    [display_text[:57] + "..."] when longer than 60 characters. *)
Definition display_text (expression result : string) : string :=
  let text := expression +:+ " = " +:+ result in
  if (60 <? String.length text)%nat then PyStr.take 57 text +:+ "..." else text.

(** [add_calculation(expression, result)]; [timestamp] is what
    [QTimer().remainingTime()] returns. *)
Definition add_calculation (p : panel) (expression result : string) (timestamp : Z)
    : panel :=
  let item :=
    {| expression := expression; result := result; timestamp := timestamp |} in
  let history := history p ++ [item] in
  let rows := history_list p ++ [(display_text expression result, item)] in
  if (100 <? length rows)%nat
  then {| history := tail history; history_list := tail rows |}
  else {| history := history; history_list := rows |}.

(** [clear_history()] *)
Definition clear_history (p : panel) : panel :=
  {| history := []; history_list := [] |}.

(** The panel after the calls [add_calculation(expression, result)] for the
    entries of [calls], in order. *)
Definition add_calculations (p : panel) (calls : list (string * string * Z)) : panel :=
  fold_left (fun p '(expression, result, timestamp) =>
               add_calculation p expression result timestamp) calls p.

End HistoryPanel.

(* ===================================================================== *)
(** ** The list of recent files of the current tree *)
(* ===================================================================== *)

Module Recent.

(** An entry of the Recent Files submenu: its text, and the path its
    trigger opens (none for the placeholder). *)
Record action : Type := {
  text : string;
  opens : option string;
}.

(** [self.recent_files], the value kept under ["recentFiles"] in the
    settings (the list given to [json.dumps]), and the submenu. *)
Record files : Type := {
  recent_files : list string;
  stored_recent_files : list string;
  recent_files_menu : list action;
}.

(** [os.path.basename(path)] where [/] is the separator: the text after
    the last [/]. *)
Definition basename (path : string) : string :=
  List.last (PyStr.split "/" path) "".

(** [list.remove(x)]: without the first element equal to [x]. *)
Fixpoint remove (x : string) (l : list string) : list string :=
  match l with
  | [] => []
  | y :: rest => if String.eqb y x then rest else y :: remove x rest
  end.

(** [ConfigManager.save_recent_files(files_list)]: what is stored,
    [files_list[-10:] if len(files_list) > 10 else files_list]. *)
Definition save_recent_files (files_list : list string) : list string :=
  if (10 <? length files_list)%nat
  then drop (length files_list - 10) files_list
  else files_list.

(** [update_recent_files_menu()]: the actions of the rebuilt submenu. *)
Definition update_recent_files_menu (recent : list string) : list action :=
  map (fun filepath => {| text := basename filepath; opens := Some filepath |}) recent
  ++ (if bool_decide (recent = [])
      then [{| text := "No recent files"; opens := None |}] else []).

(** The list is replaced, stored and shown. *)
Definition replace_recent_files (recent : list string) : files :=
  {| recent_files := recent;
     stored_recent_files := save_recent_files recent;
     recent_files_menu := update_recent_files_menu recent |}.

(** The end of [save_file] and of [save_as_file], once the file is
    written: [if filepath not in self.recent_files: ...]. *)
Definition update_recent_files (s : files) (filepath : string) : files :=
  if bool_decide (filepath ∈ recent_files s) then s
  else replace_recent_files (take 10 (filepath :: recent_files s)).

(** [save_as_file()] with an editor open: [chosen] is the path the dialog
    returns (empty when cancelled), [written] whether writing succeeds. *)
Definition save_as_file (s : files) (chosen : string) (written : bool) : files :=
  if String.eqb chosen "" then s
  else if written then update_recent_files s chosen else s.

(** [save_file()] with an editor open, whose [filepath] attribute is
    [editor_filepath] when it has one. *)
Definition save_file (s : files) (editor_filepath : option string)
    (chosen : string) (written : bool) : files :=
  match editor_filepath with
  | Some filepath =>
      if String.eqb filepath "" then save_as_file s chosen written
      else if written then update_recent_files s filepath else s
  | None => save_as_file s chosen written
  end.

(** [open_recent_file(filepath)]: [exists] is [os.path.exists(filepath)],
    [opened] whether reading the file and making the new document go
    through without an exception. *)
Definition open_recent_file (s : files) (filepath : string) (exists_ opened : bool)
    : files :=
  if exists_ then
    if opened then
      let recent :=
        if bool_decide (filepath ∈ recent_files s)
        then remove filepath (recent_files s) else recent_files s in
      replace_recent_files (take 10 (filepath :: recent))
    else s
  else if bool_decide (filepath ∈ recent_files s)
       then replace_recent_files (remove filepath (recent_files s))
       else s.

End Recent.

(* ===================================================================== *)
(** ** The library of custom functions *)
(* ===================================================================== *)

Module CustomFunctionLibrary.


(** The text of a row of [refresh_list]:
    [f"{name} - {desc}" if desc else name]. *)
Definition display_text (name desc : string) : string :=
  if String.eqb desc "" then name else name +:+ " - " +:+ desc.

(** The name [edit_function], [delete_function] and [insert_function] read
    back from the selected row: [item.text().split(' - ')[0]]. *)
Definition selected_name (item_text : string) : string :=
  PyStr.split_first " - " item_text.




End CustomFunctionLibrary.

(* ===================================================================== *)
(** ** The inspector's other commands *)
(* ===================================================================== *)

Module CurrentCommands.

(** [clear_variables()]; [editor] is the text of the current editor, when
    there is one. *)
Definition clear_variables `{Python} (s : Current.calculator) (editor : option string)
    : Current.calculator :=
  Current.recalculate_all
    {| Current.base_namespace := Current.base_namespace s;
       Current.namespace := Current.base_namespace s;
       Current.variables := ∅;
       Current.line_results := Current.line_results s;
       Current.decimal_precision := Current.decimal_precision s |}
    editor.

(** [edit_variable(var_name, new_value_str)]: the new value is evaluated
    in the base namespace; when that raises, a warning is shown and
    nothing else happens. *)
Definition edit_variable `{Python} (s : Current.calculator)
    (var_name new_value_str : string) (editor : option string)
    : Current.calculator :=
  match py_eval new_value_str (Current.base_namespace s) with
  | Ok new_value =>
      Current.recalculate_all
        {| Current.base_namespace := Current.base_namespace s;
           Current.namespace := <[var_name := new_value]> (Current.namespace s);
           Current.variables := <[var_name := new_value]> (Current.variables s);
           Current.line_results := Current.line_results s;
           Current.decimal_precision := Current.decimal_precision s |}
        editor
  | Raised _ => s
  end.

End CurrentCommands.

Module OldCommands.

Definition clear_variables `{Python} (s : Old.calculator) (editor : option string)
    : Old.calculator :=
  Old.recalculate_all
    {| Old.base_namespace := Old.base_namespace s;
       Old.namespace := Old.base_namespace s;
       Old.variables := ∅;
       Old.line_results := Old.line_results s;
       Old.decimal_precision := Old.decimal_precision s;
       Old.history := Old.history s |}
    editor.

Definition edit_variable `{Python} (s : Old.calculator)
    (var_name new_value_str : string) (editor : option string) : Old.calculator :=
  match py_eval new_value_str (Old.base_namespace s) with
  | Ok new_value =>
      Old.recalculate_all
        {| Old.base_namespace := Old.base_namespace s;
           Old.namespace := <[var_name := new_value]> (Old.namespace s);
           Old.variables := <[var_name := new_value]> (Old.variables s);
           Old.line_results := Old.line_results s;
           Old.decimal_precision := Old.decimal_precision s;
           Old.history := Old.history s |}
        editor
  | Raised _ => s
  end.

End OldCommands.

(* ===================================================================== *)
(** ** The design document's wording, for comparison *)
(* ===================================================================== *)

(** Scientific notation carrying [digits] significant digits in all, as the
    design document words the float rule: one digit before the point and
    [digits - 1] after it. *)
Definition scientific_significant (digits : nat) (x : float) : string :=
  PyFloat.format_e (digits - 1) x.

(** The condition of the float rule as the design document words it:
    [|x| > 1e10] or [0 < |x| < 1e-4]. *)
Definition out_of_plain_range (x : float) : bool :=
  (1e10 <? abs x)%float || ((0 <? abs x)%float && (abs x <? 1e-4)%float).



(* ===================================================================== *)
(** ** Invariants of the pass, and the states of the examples *)
(* ===================================================================== *)

(** Whether a line of the current tree's pass binds [name]: a line taken
    as an assignment whose stripped left-hand side is [name]. *)
Definition binds (name line : string) : bool :=
  negb (is_blank_or_comment line) && Current.is_assignment line
  && String.eqb (PyStr.strip (fst (PyStr.split1 "=" line))) name.

(** Whether a statement of the old tree's pass leaves [name] unbound: a
    single line that is not an assignment to [name], or a block whose
    execution never yields a local binding of [name]. *)
Definition leaves_unbound `{Python} (name : string) (item : Old.statement) : Prop :=
  if Old.is_multiline item
  then forall ns local_ns : bindings,
         py_exec (Old.code item) ns = Ok local_ns -> local_ns !! name = None
  else (negb (is_blank_or_comment (Old.code item))
        && Old.is_assignment (Old.code item)
        && String.eqb (PyStr.strip (fst (PyStr.split1 "=" (Old.code item)))) name)
       = false.

(** Two states of the old tree's calculator that differ at most in what
    the history panel has been given. *)
Definition same_engine (a b : Old.calculator) : Prop :=
  Old.base_namespace a = Old.base_namespace b
  /\ Old.namespace a = Old.namespace b
  /\ Old.variables a = Old.variables b
  /\ Old.line_results a = Old.line_results b
  /\ Old.decimal_precision a = Old.decimal_precision b.

(** While lines [0 .. i-1] have been segmented: the statements found so
    far have distinct line numbers, all below the start of the pending
    block (below [i] when there is none), and a pending block starts
    before [i]. *)
Definition segmenter_bound (i : nat) (st : Old.segmenter) : nat :=
  if Old.nonempty (Old.current_block st) then Old.block_start st else i.

Definition segmenter_ok (i : nat) (st : Old.segmenter) : Prop :=
  NoDup (map Old.line_num (Old.processed st))
  /\ Forall (fun item => Old.line_num item < segmenter_bound i st) (Old.processed st)
  /\ (Old.nonempty (Old.current_block st) = true -> Old.block_start st < i).

(** A statement of the segmenter starts at a line of the document: a
    single statement carries that line as it is, a block starts at a line
    that is neither blank nor a comment. *)
Definition unit_ok (lines : list string) (item : Old.statement) : Prop :=
  exists line,
    lines !! Old.line_num item = Some line
    /\ if Old.is_multiline item then is_blank_or_comment line = false
       else Old.code item = line.

Definition segmenter_units_ok (lines : list string) (st : Old.segmenter) : Prop :=
  Forall (unit_ok lines) (Old.processed st)
  /\ (Old.nonempty (Old.current_block st) = true ->
      exists line,
        lines !! Old.block_start st = Some line
        /\ is_blank_or_comment line = false).

(** The item the history panel makes of a call of [add_calculation], and
    the row it shows for an item. *)
Definition history_item_of (call : string * string * Z) : HistoryPanel.history_item :=
  let '(expression, result, timestamp) := call in
  {| HistoryPanel.expression := expression; HistoryPanel.result := result;
     HistoryPanel.timestamp := timestamp |}.

Definition history_row (item : HistoryPanel.history_item)
    : string * HistoryPanel.history_item :=
  (HistoryPanel.display_text (HistoryPanel.expression item) (HistoryPanel.result item),
   item).

(** What the list of recent files keeps true: no path twice, at most ten
    paths, and the stored list and the submenu are those of the list. *)
Definition recent_ok (s : Recent.files) : Prop :=
  NoDup (Recent.recent_files s)
  /\ length (Recent.recent_files s) <= 10
  /\ Recent.stored_recent_files s = Recent.recent_files s
  /\ Recent.recent_files_menu s
     = Recent.update_recent_files_menu (Recent.recent_files s).

(** The calculator's list of recent files before any file is known. *)
Definition no_recent_files : Recent.files :=
  Recent.replace_recent_files [].

(** The text the segmenter gathers for a block made of the lines [ls]: each
    line followed by a newline. *)
Definition block_text (ls : list string) : string :=
  fold_left Old.add_line ls "".

(** [covers lines j items]: the statements [items], in their order, tile
    the lines [0 .. j-1] of the document.  Each statement starts at the line
    after the end of the one before it; a single statement is one line, as
    it is; a block is a run of [k] lines, one at least, whose code is the
    stripped text of these lines. *)
Inductive covers (lines : list string) : nat -> list Old.statement -> Prop :=
| covers_nil : covers lines 0 []
| covers_single (j : nat) (items : list Old.statement) (line : string) :
    covers lines j items ->
    lines !! j = Some line ->
    covers lines (S j) (items ++ [Old.single_statement j line])
| covers_block (j k : nat) (items : list Old.statement) :
    covers lines j items ->
    0 < k -> j + k <= length lines ->
    covers lines (j + k)
      (items ++ [Old.block_statement j (block_text (take k (drop j lines)))]).

(** While lines [0 .. i-1] have been segmented: the statements found tile
    the lines up to some [j], and the lines from [j] on are the pending
    block, which starts at [j]. *)
Definition segmenter_covers (lines : list string) (i : nat) (st : Old.segmenter)
    : Prop :=
  exists j,
    j <= i
    /\ covers lines j (Old.processed st)
    /\ Old.current_block st = block_text (take (i - j) (drop j lines))
    /\ (j < i -> Old.block_start st = j).

(** A line that opens no block: blank, a comment, or a line that neither
    ends with a colon nor starts with a block keyword. *)
Definition opens_no_block (line : string) : bool :=
  is_blank_or_comment line
  || negb (PyStr.endswith_char ":" (PyStr.strip line)
           || Old.starts_with_any Old.block_keywords (PyStr.strip line)).




(** The calculators the examples start from: nothing bound, six digits. *)
Definition fresh_current : Current.calculator :=
  {| Current.base_namespace := ∅; Current.namespace := ∅;
     Current.variables := ∅; Current.line_results := ∅;
     Current.decimal_precision := 6 |}.

Definition fresh_old : Old.calculator :=
  {| Old.base_namespace := ∅; Old.namespace := ∅; Old.variables := ∅;
     Old.line_results := ∅; Old.decimal_precision := 6; Old.history := [] |}.

(** The calculator left with [x] in its store, as after a pass over another
    document. *)
Definition current_with_x : Current.calculator :=
  {| Current.base_namespace := ∅; Current.namespace := <["x" := VInt 2]> ∅;
     Current.variables := <["x" := VInt 2]> ∅; Current.line_results := ∅;
     Current.decimal_precision := 6 |}.



(* ===================================================================== *)
(** ** The result formatter *)
(* ===================================================================== *)

(** The code's test for scientific notation is the design document's:
    [abs(x) < 1e-4 and x != 0] holds exactly when [0 < |x| < 1e-4]. *)
Lemma wants_scientific_range (x : float) :
  wants_scientific x = out_of_plain_range x.
Proof.
  unfold wants_scientific, out_of_plain_range. f_equal.
  rewrite !ltb_spec, FloatAxioms.eqb_spec, abs_spec.
  change (Prim2SF 0) with (S754_zero false).
  destruct (Prim2SF x) as [s | s | | s m e]; simpl; try reflexivity.
  destruct s; simpl; apply andb_true_r.
Qed.

(** C5 (as amended). Both trees format a float [v] with [.{precision}e]
    (one digit, [precision] digits after the point, hence [precision + 1]
    significant digits) when [|v| > 1e10] or [0 < |v| < 1e-4], and with
    [.{precision}g] ([precision] significant digits) otherwise; [1e12] at
    precision 6 gives "1.000000e+12" and [1.0/3.0] gives "0.333333". *)
Theorem format_result_float (rt : Python) (precision : nat) (v : float) :
  let expected :=
    if out_of_plain_range v then PyFloat.format_e precision v
    else PyFloat.format_g precision v in
  Current.format_result precision (VFloat v) = expected
  /\ Old.format_result precision (VFloat v) = expected
  /\ Current.format_result 6 (VFloat 1e12) = "1.000000e+12"
  /\ Old.format_result 6 (VFloat 1e12) = "1.000000e+12"
  /\ Current.format_result 6 (VFloat (1 / 3)) = "0.333333"
  /\ Old.format_result 6 (VFloat (1 / 3)) = "0.333333".
Proof.
  cbv zeta. rewrite <- wants_scientific_range.
  repeat split; try reflexivity; vm_compute; reflexivity.
Qed.

(** C5, the claim as stated fails: at precision 6 the float [1e12] is
    printed with seven significant digits, "1.000000e+12", which is not
    scientific notation at six significant digits, "1.00000e+12". *)
Lemma format_result_float_significant_digits :
  Current.format_result (H := MiniPython.runtime) 6 (VFloat 1e12) = "1.000000e+12"
  /\ Old.format_result (H := MiniPython.runtime) 6 (VFloat 1e12) = "1.000000e+12"
  /\ scientific_significant 6 1e12 = "1.00000e+12"
  /\ Current.format_result (H := MiniPython.runtime) 6 (VFloat 1e12)
     <> scientific_significant 6 1e12.
Proof.
  repeat split; try (vm_compute; reflexivity).
  vm_compute. discriminate.
Qed.

(** C6 (as amended). Both trees format a complex number as its real part,
    formatted by the float rule, when the imaginary part is zero; as the
    imaginary part in [g] notation followed by [j] when the real part is
    zero; and otherwise as both parts in [g] notation between parentheses,
    with a [+] exactly when the imaginary part is non-negative. *)
Theorem format_result_complex (rt : Python) (precision : nat) (re im : float) :
  let g := PyFloat.format_g precision in
  Current.format_result precision (VComplex re im) =
    (if (im =? 0)%float then Current.format_result precision (VFloat re)
     else if (re =? 0)%float then g im +:+ "j"
     else "(" +:+ g re +:+ (if (0 <=? im)%float then "+" else "") +:+ g im +:+ "j)")
  /\ Old.format_result precision (VComplex re im) =
       Current.format_result precision (VComplex re im)
  /\ Current.format_result 6 (VComplex 3 4) = "(3+4j)"
  /\ Current.format_result 6 (VComplex 3 (-4)) = "(3-4j)"
  /\ Current.format_result 6 (VComplex 0 5) = "5j"
  /\ Current.format_result 6 (VComplex 5 0) = "5".
Proof.
  cbv zeta. repeat split; try reflexivity; vm_compute; reflexivity.
Qed.

(** C6, the claim as stated fails: the imaginary part of [1e12j] is not
    formatted by the formatter's own float rule (which gives
    "1.000000e+12") but in [g] notation. *)
Lemma format_result_complex_not_recursive :
  Current.format_result (H := MiniPython.runtime) 6 (VComplex 0 1e12) = "1e+12j"
  /\ Old.format_result (H := MiniPython.runtime) 6 (VComplex 0 1e12) = "1e+12j"
  /\ Current.format_result (H := MiniPython.runtime) 6 (VFloat 1e12) +:+ "j"
     = "1.000000e+12j".
Proof. repeat split; vm_compute; reflexivity. Qed.




(* ===================================================================== *)
(** ** Strings *)
(* ===================================================================== *)


(* ===================================================================== *)
(** ** Assignment lines and expression lines *)
(* ===================================================================== *)




(* ===================================================================== *)
(** ** The recalculation pass of the current tree *)
(* ===================================================================== *)

Section CurrentPass.
Context {rt : Python}.


Lemma evaluate_line_assign (s : Current.calculator) (i : nat)
    (line lhs rhs : string) (v : value) :
  is_blank_or_comment line = false ->
  Current.is_assignment line = true ->
  PyStr.split1 "=" line = (lhs, Some rhs) ->
  py_eval (PyStr.strip rhs) (Current.namespace s) = Ok v ->
  Current.evaluate_line s i line = Current.assign s i (PyStr.strip lhs) v.
Proof.
  intros Hb Ha Hs Hv. unfold Current.evaluate_line.
  rewrite Hb, Ha, Hs, Hv. reflexivity.
Qed.

Lemma evaluate_line_expression (s : Current.calculator) (i : nat)
    (line : string) (v : value) :
  is_blank_or_comment line = false ->
  Current.is_assignment line = false ->
  py_eval line (Current.namespace s) = Ok v ->
  Current.evaluate_line s i line =
    match v with
    | VNone => s
    | _ => Current.set_line_result s i
             (Current.format_result (Current.decimal_precision s) v)
    end.
Proof.
  intros Hb Ha Hv. unfold Current.evaluate_line.
  rewrite Hb, Ha, Hv. destruct v; reflexivity.
Qed.

(** A line only writes the entry of its own number. *)
Lemma evaluate_line_other (s : Current.calculator) (i j : nat) (line : string) :
  i <> j ->
  Current.line_results (Current.evaluate_line s i line) !! j
  = Current.line_results s !! j.
Proof.
  intros Hij. unfold Current.evaluate_line.
  destruct (is_blank_or_comment line); [reflexivity |].
  destruct (Current.is_assignment line).
  - destruct (PyStr.split1 "=" line) as [lhs [rhs |]].
    + destruct (py_eval (PyStr.strip rhs) (Current.namespace s)); simpl;
        apply lookup_insert_ne; exact Hij.
    + simpl. apply lookup_insert_ne; exact Hij.
  - destruct (py_eval line (Current.namespace s)) as [[] |]; simpl;
      try reflexivity; apply lookup_insert_ne; exact Hij.
Qed.

(** The base namespace and the precision are never written. *)
Lemma evaluate_line_constants (s : Current.calculator) (i : nat) (line : string) :
  Current.base_namespace (Current.evaluate_line s i line) = Current.base_namespace s
  /\ Current.decimal_precision (Current.evaluate_line s i line)
     = Current.decimal_precision s.
Proof.
  unfold Current.evaluate_line.
  destruct (is_blank_or_comment line); [split; reflexivity |].
  destruct (Current.is_assignment line).
  - destruct (PyStr.split1 "=" line) as [lhs [rhs |]].
    + destruct (py_eval (PyStr.strip rhs) (Current.namespace s)); split; reflexivity.
    + split; reflexivity.
  - destruct (py_eval line (Current.namespace s)) as [[] |]; split; reflexivity.
Qed.

Lemma run_lines_app (i : nat) (before after : list string) (s : Current.calculator) :
  Current.run_lines i (before ++ after) s
  = Current.run_lines (i + length before) after (Current.run_lines i before s).
Proof.
  revert i s. induction before as [| line before IH]; intros i s; simpl.
  - rewrite Nat.add_0_r. reflexivity.
  - rewrite IH. f_equal. lia.
Qed.

(** The lines numbered [i], [i + 1], ... leave the other entries alone. *)
Lemma run_lines_other (lines : list string) (i j : nat) (s : Current.calculator) :
  j < i \/ i + length lines <= j ->
  Current.line_results (Current.run_lines i lines s) !! j
  = Current.line_results s !! j.
Proof.
  revert i s. induction lines as [| line lines IH]; intros i s Hj; simpl.
  - reflexivity.
  - rewrite IH by (simpl in Hj; lia).
    apply evaluate_line_other. simpl in Hj. lia.
Qed.

Lemma run_lines_constants (lines : list string) (i : nat) (s : Current.calculator) :
  Current.base_namespace (Current.run_lines i lines s) = Current.base_namespace s
  /\ Current.decimal_precision (Current.run_lines i lines s)
     = Current.decimal_precision s.
Proof.
  revert i s. induction lines as [| line lines IH]; intros i s; simpl.
  - split; reflexivity.
  - destruct (IH (S i) (Current.evaluate_line s i line)) as [-> ->].
    apply evaluate_line_constants.
Qed.

(** The pass only reads the base namespace and the precision of the state
    it is started in. *)
Lemma reset_after_pass (s : Current.calculator) (lines : list string) :
  Current.reset (Current.recalculate_lines s lines) = Current.reset s.
Proof.
  unfold Current.recalculate_lines, Current.reset.
  destruct (run_lines_constants lines 0 (Current.reset s)) as [Hb Hp].
  unfold Current.reset in Hb, Hp. rewrite Hb, Hp. reflexivity.
Qed.

End CurrentPass.

(* ===================================================================== *)
(** ** The statement segmenter of the old tree *)
(* ===================================================================== *)

Lemma add_line_nonempty (block line : string) :
  Old.nonempty (Old.add_line block line) = true.
Proof.
  unfold Old.add_line. destruct block as [| c block]; [| reflexivity].
  destruct line; reflexivity.
Qed.

(** Appending a statement whose number is beyond those found so far. *)
Lemma append_statement (bound n : nat) (items : list Old.statement)
    (item : Old.statement) :
  NoDup (map Old.line_num items) ->
  Forall (fun it => Old.line_num it < bound) items ->
  bound <= Old.line_num item -> Old.line_num item < n ->
  NoDup (map Old.line_num (items ++ [item]))
  /\ Forall (fun it => Old.line_num it < n) (items ++ [item]).
Proof.
  intros Hnd Hall Hle Hlt. split.
  - rewrite map_app. apply NoDup_app. split; [exact Hnd |]. split.
    + intros x Hx Hin. simpl in Hin. apply list_elem_of_singleton in Hin. subst x.
      apply list_elem_of_fmap in Hx as (it & Heq & Hit).
      rewrite Forall_forall in Hall. specialize (Hall it Hit). lia.
    + simpl. apply NoDup_singleton.
  - apply Forall_app. split.
    + eapply Forall_impl; [exact Hall |]. simpl. intros it Hit. lia.
    + constructor; [exact Hlt | constructor].
Qed.

Ltac close_segmenter Hstart :=
  repeat split; auto; try discriminate;
  try (intros _; try specialize (Hstart eq_refl); lia).

Lemma segment_line_ok (i : nat) (line : string) (st : Old.segmenter) :
  segmenter_ok i st -> segmenter_ok (S i) (Old.segment_line st i line).
Proof.
  unfold segmenter_ok, segmenter_bound. intros (Hnd & Hall & Hstart).
  unfold Old.segment_line.
  destruct (String.eqb (PyStr.strip line) "" || PyStr.startswith "#" (PyStr.strip line)).
  { destruct (Old.nonempty (Old.current_block st)) eqn:Hblock; simpl.
    - rewrite add_line_nonempty. close_segmenter Hstart.
    - rewrite Hblock.
      destruct (append_statement i (S i) (Old.processed st)
                  (Old.single_statement i line) Hnd Hall) as [H1 H2];
        simpl; try lia.
      close_segmenter Hstart. }
  destruct (PyStr.endswith_char ":" (PyStr.strip line)
            || Old.starts_with_any Old.block_keywords (PyStr.strip line)
            || (0 <? Old.indent_level st)%nat).
  { set (start := if Old.nonempty (Old.current_block st)
                  then Old.block_start st else i).
    assert (Hall' : Forall (fun it => Old.line_num it < start) (Old.processed st))
      by exact Hall.
    assert (Hlt : start < S i).
    { subst start. destruct (Old.nonempty (Old.current_block st)); [| lia].
      specialize (Hstart eq_refl). lia. }
    match goal with |- context [if ?c then _ else _] => destruct c end; simpl.
    - destruct (append_statement start (S i) (Old.processed st)
                  (Old.block_statement start
                     (Old.add_line (Old.current_block st) line)) Hnd Hall')
        as [H1 H2]; simpl; try lia.
      close_segmenter Hstart.
    - rewrite add_line_nonempty. close_segmenter Hstart. }
  simpl.
  destruct (Old.nonempty (Old.current_block st)) eqn:Hblock.
  - specialize (Hstart eq_refl).
    destruct (append_statement (Old.block_start st) i (Old.processed st)
                (Old.block_statement (Old.block_start st) (Old.current_block st))
                Hnd Hall) as [H1 H2]; simpl; try lia.
    destruct (append_statement i (S i) _ (Old.single_statement i line) H1 H2)
      as [H3 H4]; simpl; try lia.
    close_segmenter Hstart.
  - destruct (append_statement i (S i) (Old.processed st)
                (Old.single_statement i line) Hnd Hall) as [H1 H2];
      simpl; try lia.
    close_segmenter Hstart.
Qed.

Lemma segment_lines_ok (lines : list string) (i : nat) (st : Old.segmenter) :
  segmenter_ok i st ->
  segmenter_ok (i + length lines) (Old.segment_lines i lines st).
Proof.
  revert i st. induction lines as [| line lines IH]; intros i st Hok; simpl.
  - rewrite Nat.add_0_r. exact Hok.
  - replace (i + S (length lines)) with (S i + length lines) by lia.
    apply IH, segment_line_ok, Hok.
Qed.

(** No two statements of a segmented document start at the same line. *)
Lemma process_multiline_statements_NoDup (lines : list string) :
  NoDup (map Old.line_num (Old.process_multiline_statements lines)).
Proof.
  unfold Old.process_multiline_statements.
  set (init := {| Old.processed := []; Old.current_block := "";
                  Old.block_start := 0; Old.indent_level := 0 |}).
  assert (Hinit : segmenter_ok 0 init).
  { repeat split; simpl; [constructor | constructor | discriminate]. }
  pose proof (segment_lines_ok lines 0 init Hinit) as (Hnd & Hall & Hstart).
  unfold segmenter_bound in Hall.
  destruct (Old.nonempty (Old.current_block (Old.segment_lines 0 lines init)));
    [| exact Hnd].
  specialize (Hstart eq_refl).
  destruct (append_statement (Old.block_start (Old.segment_lines 0 lines init))
              (0 + length lines) _
              (Old.block_statement (Old.block_start (Old.segment_lines 0 lines init))
                 (Old.current_block (Old.segment_lines 0 lines init)))
              Hnd Hall) as [H1 _]; simpl; try lia.
  exact H1.
Qed.

(** Every statement of a segmented document starts at one of its lines. *)
Lemma process_multiline_statements_bound (lines : list string) :
  Forall (fun item => Old.line_num item < length lines)
    (Old.process_multiline_statements lines).
Proof.
  unfold Old.process_multiline_statements.
  set (init := {| Old.processed := []; Old.current_block := "";
                  Old.block_start := 0; Old.indent_level := 0 |}).
  assert (Hinit : segmenter_ok 0 init).
  { repeat split; simpl; [constructor | constructor | discriminate]. }
  pose proof (segment_lines_ok lines 0 init Hinit) as (Hnd & Hall & Hstart).
  unfold segmenter_bound in Hall.
  destruct (Old.nonempty (Old.current_block (Old.segment_lines 0 lines init))).
  - specialize (Hstart eq_refl).
    destruct (append_statement (Old.block_start (Old.segment_lines 0 lines init))
                (0 + length lines) _
                (Old.block_statement (Old.block_start (Old.segment_lines 0 lines init))
                   (Old.current_block (Old.segment_lines 0 lines init)))
                Hnd Hall) as [_ H2]; simpl; try lia.
    exact H2.
  - exact Hall.
Qed.

Lemma segment_line_units_ok (lines : list string) (i : nat) (line : string)
    (st : Old.segmenter) :
  lines !! i = Some line ->
  segmenter_units_ok lines st ->
  segmenter_units_ok lines (Old.segment_line st i line).
Proof.
  intros Hline [Hunits Hblock]. unfold Old.segment_line.
  assert (Hsingle : unit_ok lines (Old.single_statement i line)).
  { exists line. split; [exact Hline | reflexivity]. }
  fold (is_blank_or_comment line).
  destruct (is_blank_or_comment line) eqn:Hblank.
  { destruct (Old.nonempty (Old.current_block st)) eqn:Hne; split; simpl.
    - exact Hunits.
    - intros _. apply Hblock. reflexivity.
    - apply Forall_app. split; [exact Hunits | repeat constructor; exact Hsingle].
    - rewrite Hne. discriminate. }
  destruct (PyStr.endswith_char ":" (PyStr.strip line)
            || Old.starts_with_any Old.block_keywords (PyStr.strip line)
            || (0 <? Old.indent_level st)%nat).
  { set (start := if Old.nonempty (Old.current_block st)
                  then Old.block_start st else i).
    assert (Hstart : exists first,
               lines !! start = Some first /\ is_blank_or_comment first = false).
    { subst start. destruct (Old.nonempty (Old.current_block st)).
      - apply Hblock. reflexivity.
      - exists line. split; assumption. }
    match goal with |- context [if ?c then _ else _] => destruct c end;
      split; simpl.
    - apply Forall_app. split; [exact Hunits |].
      repeat constructor. destruct Hstart as (first & Hfirst & Hnb).
      exists first. split; [exact Hfirst | exact Hnb].
    - discriminate.
    - exact Hunits.
    - intros _. exact Hstart. }
  split; simpl; [| discriminate].
  apply Forall_app. split; [| repeat constructor; exact Hsingle].
  destruct (Old.nonempty (Old.current_block st)); [| exact Hunits].
  apply Forall_app. split; [exact Hunits |].
  repeat constructor. destruct (Hblock eq_refl) as (first & Hfirst & Hnb).
  exists first. split; [exact Hfirst | exact Hnb].
Qed.

Lemma segment_lines_units_ok (lines rest : list string) (i : nat)
    (st : Old.segmenter) :
  (forall k line, rest !! k = Some line -> lines !! (i + k) = Some line) ->
  segmenter_units_ok lines st ->
  segmenter_units_ok lines (Old.segment_lines i rest st).
Proof.
  revert i st. induction rest as [| line rest IH]; intros i st Hrest Hok; simpl.
  - exact Hok.
  - apply IH.
    + intros k l Hk. replace (S i + k) with (i + S k) by lia.
      apply Hrest. exact Hk.
    + apply segment_line_units_ok; [| exact Hok].
      specialize (Hrest 0 line eq_refl). rewrite Nat.add_0_r in Hrest. exact Hrest.
Qed.

Lemma process_multiline_statements_units (lines : list string) :
  Forall (unit_ok lines) (Old.process_multiline_statements lines).
Proof.
  unfold Old.process_multiline_statements.
  set (init := {| Old.processed := []; Old.current_block := "";
                  Old.block_start := 0; Old.indent_level := 0 |}).
  assert (Hinit : segmenter_units_ok lines init).
  { split; simpl; [constructor | discriminate]. }
  destruct (segment_lines_units_ok lines lines 0 init (fun k line H => H) Hinit)
    as [Hunits Hblock].
  destruct (Old.nonempty (Old.current_block (Old.segment_lines 0 lines init)));
    [| exact Hunits].
  apply Forall_app. split; [exact Hunits |].
  repeat constructor. destruct (Hblock eq_refl) as (first & Hfirst & Hnb).
  exists first. split; [exact Hfirst | exact Hnb].
Qed.

(* ===================================================================== *)
(** ** The recalculation pass of the old tree *)
(* ===================================================================== *)

Section OldPass.
Context {rt : Python}.


(** Every branch of the loop body, as one case analysis. *)
Ltac statement_cases :=
  unfold Old.evaluate_statement, Old.execute_multiline_code, Old.update_namespace;
  cbn [Old.base_namespace Old.namespace Old.variables Old.line_results
       Old.decimal_precision Old.history];
  repeat match goal with
         | |- context [match ?x with _ => _ end] =>
             lazymatch x with
             | context [match _ with _ => _ end] => fail
             | _ => destruct x
             end
         end.

(** A statement only writes the entry of its own line number. *)
Lemma evaluate_statement_other (s : Old.calculator) (item : Old.statement) (j : nat) :
  Old.line_num item <> j ->
  Old.line_results (Old.evaluate_statement s item) !! j = Old.line_results s !! j.
Proof.
  intros Hj. statement_cases; simpl; try reflexivity;
    apply lookup_insert_ne; exact Hj.
Qed.

Lemma evaluate_statement_constants (s : Old.calculator) (item : Old.statement) :
  Old.base_namespace (Old.evaluate_statement s item) = Old.base_namespace s
  /\ Old.decimal_precision (Old.evaluate_statement s item) = Old.decimal_precision s.
Proof. statement_cases; split; reflexivity. Qed.


Lemma run_statements_other (items : list Old.statement) (s : Old.calculator) (j : nat) :
  j ∉ map Old.line_num items ->
  Old.line_results (Old.run_statements items s) !! j = Old.line_results s !! j.
Proof.
  unfold Old.run_statements.
  revert s. induction items as [| item items IH]; intros s Hj; simpl.
  - reflexivity.
  - simpl in Hj. apply not_elem_of_cons in Hj as [Hne Hj].
    rewrite IH by exact Hj.
    apply evaluate_statement_other. congruence.
Qed.

Lemma run_statements_constants (items : list Old.statement) (s : Old.calculator) :
  Old.base_namespace (Old.run_statements items s) = Old.base_namespace s
  /\ Old.decimal_precision (Old.run_statements items s) = Old.decimal_precision s.
Proof.
  unfold Old.run_statements.
  revert s. induction items as [| item items IH]; intros s; simpl.
  - split; reflexivity.
  - destruct (IH (Old.evaluate_statement s item)) as [-> ->].
    apply evaluate_statement_constants.
Qed.

(** What the history panel has been given has no influence on the engine. *)
Lemma evaluate_statement_same_engine (a b : Old.calculator) (item : Old.statement) :
  same_engine a b ->
  same_engine (Old.evaluate_statement a item) (Old.evaluate_statement b item).
Proof.
  destruct a as [ba na va la pa ha], b as [bb nb vb lb pb hb].
  unfold same_engine. simpl. intros (-> & -> & -> & -> & ->).
  statement_cases; simpl; auto 6.
Qed.

Lemma run_statements_same_engine (items : list Old.statement) (a b : Old.calculator) :
  same_engine a b ->
  same_engine (Old.run_statements items a) (Old.run_statements items b).
Proof.
  unfold Old.run_statements.
  revert a b. induction items as [| item items IH]; intros a b Hab; simpl.
  - exact Hab.
  - apply IH, evaluate_statement_same_engine, Hab.
Qed.

Lemma reset_same_engine (a b : Old.calculator) :
  Old.base_namespace a = Old.base_namespace b ->
  Old.decimal_precision a = Old.decimal_precision b ->
  same_engine (Old.reset a) (Old.reset b).
Proof. intros Hb Hp. unfold same_engine, Old.reset. simpl. auto. Qed.

End OldPass.

(* ===================================================================== *)
(** ** Failures stay local *)
(* ===================================================================== *)





(* ===================================================================== *)
(** ** A result of [None] *)
(* ===================================================================== *)

(** C10. In the current tree an expression line whose value is [None]
    gets no entry in [line_results]. *)
Theorem none_result_is_not_displayed (rt : Python) (s : Current.calculator)
    (text : string) (before after : list string) (line : string) :
  PyStr.split PyStr.newline text = before ++ line :: after ->
  is_blank_or_comment line = false ->
  Current.is_assignment line = false ->
  py_eval line (Current.namespace (Current.run_lines 0 before (Current.reset s)))
    = Ok VNone ->
  Current.line_results (Current.recalculate_changed_lines s text) !! length before
    = None.
Proof.
  intros Hsplit Hblank Hassign Hnone.
  unfold Current.recalculate_changed_lines, Current.recalculate_lines.
  rewrite Hsplit, run_lines_app. simpl.
  rewrite (evaluate_line_expression _ _ _ VNone) by assumption.
  rewrite !run_lines_other by lia.
  reflexivity.
Qed.

(** The theorem at the document [x = 1], [None], [x]. *)
Lemma none_result_is_not_displayed_witness :
  Current.line_results
    (Current.recalculate_changed_lines (H := MiniPython.runtime) fresh_current
       (document ["x = 1"; "None"; "x"])) !! 1 = None.
Proof.
  exact (none_result_is_not_displayed MiniPython.runtime fresh_current
           (document ["x = 1"; "None"; "x"]) ["x = 1"] ["x"] "None"
           eq_refl eq_refl eq_refl eq_refl).
Defined.

(* ===================================================================== *)
(** ** Recalculating again *)
(* ===================================================================== *)

(** C8. Recalculating a document a second time gives the same
    [line_results] (and the same variables) as the first time: the pass
    starts from a copy of the base namespace and from empty dictionaries,
    whatever the previous pass left. *)
Theorem recalculate_twice (rt : Python) :
  (forall (s : Current.calculator) (text : string),
     let once := Current.recalculate_changed_lines s text in
     let twice := Current.recalculate_changed_lines once text in
     Current.line_results twice = Current.line_results once
     /\ Current.variables twice = Current.variables once)
  /\ (forall (s : Old.calculator) (text : string),
        let once := Old.recalculate_changed_lines s text in
        let twice := Old.recalculate_changed_lines once text in
        Old.line_results twice = Old.line_results once
        /\ Old.variables twice = Old.variables once).
Proof.
  split.
  - intros s text once twice.
    assert (Heq : twice = once).
    { subst twice once.
      unfold Current.recalculate_changed_lines, Current.recalculate_lines at 1.
      rewrite reset_after_pass. reflexivity. }
    rewrite Heq. split; reflexivity.
  - intros s text once twice.
    assert (Hsame : same_engine twice once).
    { subst twice once.
      unfold Old.recalculate_changed_lines, Old.recalculate_lines.
      apply run_statements_same_engine.
      destruct (run_statements_constants
                  (Old.process_multiline_statements (PyStr.split PyStr.newline text))
                  (Old.reset s)) as [Hb Hp].
      apply reset_same_engine; [exact Hb | exact Hp]. }
    destruct Hsame as (_ & _ & Hv & Hl & _). split; assumption.
Qed.

(* ===================================================================== *)
(** ** Deleting a variable *)
(* ===================================================================== *)









(* ===================================================================== *)
(** ** Stepping through the old tree's loop body *)
(* ===================================================================== *)

Section OldSteps.
Context {rt : Python}.

Lemma evaluate_statement_assign (s : Old.calculator) (item : Old.statement)
    (lhs rhs : string) (v : value) :
  is_blank_or_comment (Old.code item) = false ->
  Old.is_multiline item = false ->
  Old.is_assignment (Old.code item) = true ->
  PyStr.split1 "=" (Old.code item) = (lhs, Some rhs) ->
  py_eval (PyStr.strip rhs) (Old.variables s ∪ Old.namespace s) = Ok v ->
  Old.evaluate_statement s item =
    let formatted := Old.format_result (Old.decimal_precision s) v in
    Old.record_result (Old.bind (Old.update_namespace s) (PyStr.strip lhs) v)
      (Old.line_num item) (PyStr.strip lhs +:+ " = " +:+ formatted)
      (Old.code item) formatted.
Proof.
  intros Hb Hm Ha Hs Hv. unfold Old.evaluate_statement.
  rewrite Hb, Hm, Ha, Hs.
  change (Old.namespace (Old.update_namespace s))
    with (Old.variables s ∪ Old.namespace s).
  rewrite Hv. reflexivity.
Qed.

Lemma evaluate_statement_expression (s : Old.calculator) (item : Old.statement) :
  is_blank_or_comment (Old.code item) = false ->
  Old.is_multiline item = false ->
  Old.is_assignment (Old.code item) = false ->
  Old.evaluate_statement s item =
    match py_eval (Old.code item) (Old.variables s ∪ Old.namespace s) with
    | Ok v =>
        let formatted := Old.format_result (Old.decimal_precision s) v in
        Old.record_result (Old.update_namespace s) (Old.line_num item) formatted
          (Old.code item) formatted
    | Raised e =>
        Old.set_line_result (Old.update_namespace s) (Old.line_num item) (error_msg e)
    end.
Proof.
  intros Hb Hm Ha. unfold Old.evaluate_statement.
  rewrite Hb, Hm, Ha. reflexivity.
Qed.



End OldSteps.

(* ===================================================================== *)
(** ** The documents of the design document *)
(* ===================================================================== *)

(** C4. For the document [x = 2], [y = x + 3], [y], both trees produce
    exactly the entries 0: "x = 2", 1: "y = 5", 2: "5", given what Python
    evaluates the three expressions to. *)
Theorem three_line_document (rt : Python) (c : Current.calculator)
    (o : Old.calculator) :
  (forall ns : bindings, py_eval "2" ns = Ok (VInt 2)) ->
  (forall ns : bindings,
     ns !! "x" = Some (VInt 2) -> py_eval "x + 3" ns = Ok (VInt 5)) ->
  (forall ns : bindings, ns !! "y" = Some (VInt 5) -> py_eval "y" ns = Ok (VInt 5)) ->
  let text := document ["x = 2"; "y = x + 3"; "y"] in
  let expected : gmap nat string := {[0 := "x = 2"; 1 := "y = 5"; 2 := "5"]} in
  Current.line_results (Current.recalculate_changed_lines c text) = expected
  /\ Old.line_results (Old.recalculate_changed_lines o text) = expected.
Proof.
  intros H2 Hx Hy text expected. split.
  - unfold Current.recalculate_changed_lines, Current.recalculate_lines.
    replace (PyStr.split PyStr.newline text) with ["x = 2"; "y = x + 3"; "y"]
      by reflexivity.
    simpl.
    rewrite (evaluate_line_assign (Current.reset c) 0 "x = 2" "x " " 2" (VInt 2))
      by first [reflexivity | apply H2].
    rewrite (evaluate_line_assign _ 1 "y = x + 3" "y " " x + 3" (VInt 5))
      by first [reflexivity | apply Hx; apply lookup_insert_eq].
    rewrite (evaluate_line_expression _ 2 "y" (VInt 5))
      by first [reflexivity | apply Hy; apply lookup_insert_eq].
    vm_compute. reflexivity.
  - unfold Old.recalculate_changed_lines, Old.recalculate_lines.
    replace (Old.process_multiline_statements (PyStr.split PyStr.newline text))
      with [Old.single_statement 0 "x = 2"; Old.single_statement 1 "y = x + 3";
            Old.single_statement 2 "y"] by reflexivity.
    unfold Old.run_statements. simpl.
    rewrite (evaluate_statement_assign (Old.reset o)
               (Old.single_statement 0 "x = 2") "x " " 2" (VInt 2))
      by first [reflexivity | apply H2].
    rewrite (evaluate_statement_assign _ (Old.single_statement 1 "y = x + 3")
               "y " " x + 3" (VInt 5))
      by first [reflexivity
               | apply Hx; apply lookup_union_Some_l;
                 cbv zeta; unfold Old.record_result, Old.bind;
                 cbn [Old.variables]; apply lookup_insert_eq].
    rewrite evaluate_statement_expression by reflexivity.
    cbn [Old.code Old.single_statement].
    rewrite Hy
      by (apply lookup_union_Some_l;
          cbv zeta; unfold Old.record_result, Old.bind;
          cbn [Old.variables]; apply lookup_insert_eq).
    vm_compute. reflexivity.
Qed.

(** What [MiniPython] evaluates the expressions of that document to. *)
Lemma mini_two (ns : bindings) : MiniPython.eval "2" ns = Ok (VInt 2).
Proof. reflexivity. Qed.

Lemma mini_x_plus_3 (ns : bindings) :
  ns !! "x" = Some (VInt 2) -> MiniPython.eval "x + 3" ns = Ok (VInt 5).
Proof.
  intros Hx. unfold MiniPython.eval.
  replace (MiniPython.parse_expression "x + 3")
    with (Some (MiniPython.EBin "+" (MiniPython.EName "x") (MiniPython.ENum 3)))
    by (vm_compute; reflexivity).
  unfold MiniPython.depth. simpl. rewrite Hx. reflexivity.
Qed.

Lemma mini_y (ns : bindings) :
  ns !! "y" = Some (VInt 5) -> MiniPython.eval "y" ns = Ok (VInt 5).
Proof.
  intros Hy. unfold MiniPython.eval.
  replace (MiniPython.parse_expression "y") with (Some (MiniPython.EName "y"))
    by (vm_compute; reflexivity).
  unfold MiniPython.depth. simpl. rewrite Hy. reflexivity.
Qed.

(** The theorem with [MiniPython] as the runtime, on fresh calculators. *)
Lemma three_line_document_witness :
  let text := document ["x = 2"; "y = x + 3"; "y"] in
  let expected : gmap nat string := {[0 := "x = 2"; 1 := "y = 5"; 2 := "5"]} in
  Current.line_results
    (Current.recalculate_changed_lines (H := MiniPython.runtime) fresh_current text)
    = expected
  /\ Old.line_results
       (Old.recalculate_changed_lines (H := MiniPython.runtime) fresh_old text)
     = expected.
Proof.
  exact (three_line_document MiniPython.runtime fresh_current fresh_old
           mini_two mini_x_plus_3 mini_y).
Defined.




(* ===================================================================== *)
(** ** Further properties of the pass *)
(* ===================================================================== *)

(** Statements whose units are well placed leave the entry of a blank or
    comment line alone. *)
Lemma run_statements_blank_line (rt : Python) (lines : list string)
    (items : list Old.statement) (s : Old.calculator) (i : nat) (line : string) :
  Forall (unit_ok lines) items ->
  lines !! i = Some line ->
  is_blank_or_comment line = true ->
  Old.line_results (Old.run_statements items s) !! i = Old.line_results s !! i.
Proof.
  intros Hunits Hline Hblank. unfold Old.run_statements. revert s.
  induction Hunits as [| item items Hitem _ IH]; intros s; simpl.
  - reflexivity.
  - rewrite IH. destruct (Nat.eq_dec (Old.line_num item) i) as [Heq | Hne].
    + destruct Hitem as (line' & Hline' & Hkind).
      rewrite Heq, Hline in Hline'. injection Hline' as <-.
      destruct (Old.is_multiline item); [congruence |].
      unfold Old.evaluate_statement. rewrite Hkind, Hblank. reflexivity.
    + apply evaluate_statement_other. exact Hne.
Qed.

(** A blank line or a comment line never gets an entry in [line_results],
    in either tree. *)
Theorem comment_line_has_no_entry (rt : Python) (text : string)
    (before after : list string) (line : string) :
  PyStr.split PyStr.newline text = before ++ line :: after ->
  is_blank_or_comment line = true ->
  (forall s : Current.calculator,
     Current.line_results (Current.recalculate_changed_lines s text)
       !! length before = None)
  /\ (forall s : Old.calculator,
        Old.line_results (Old.recalculate_changed_lines s text)
          !! length before = None).
Proof.
  intros Hsplit Hblank. split; intros s.
  - unfold Current.recalculate_changed_lines, Current.recalculate_lines.
    rewrite Hsplit, run_lines_app. simpl.
    unfold Current.evaluate_line at 1. rewrite Hblank.
    rewrite !run_lines_other by lia. reflexivity.
  - unfold Old.recalculate_changed_lines, Old.recalculate_lines.
    rewrite (run_statements_blank_line rt (PyStr.split PyStr.newline text)
               _ _ (length before) line).
    + reflexivity.
    + apply process_multiline_statements_units.
    + rewrite Hsplit. apply list_lookup_middle. reflexivity.
    + exact Hblank.
Qed.

(** The theorem at the document [x = 1], [# note], [x]. *)
Lemma comment_line_has_no_entry_witness :
  let text := document ["x = 1"; "# note"; "x"] in
  Current.line_results
    (Current.recalculate_changed_lines (H := MiniPython.runtime) fresh_current text)
    !! 1 = None
  /\ Old.line_results
       (Old.recalculate_changed_lines (H := MiniPython.runtime) fresh_old text)
       !! 1 = None.
Proof.
  destruct (comment_line_has_no_entry MiniPython.runtime
              (document ["x = 1"; "# note"; "x"]) ["x = 1"] ["x"] "# note"
              eq_refl eq_refl) as [Hcurrent Hold].
  split; [apply Hcurrent | apply Hold].
Defined.

(** The units of the segmenter start at distinct lines of the document; a
    single-line unit carries its line as it is, and a block starts at a line
    that is neither blank nor a comment. *)
Theorem segmentation_units (lines : list string) :
  let items := Old.process_multiline_statements lines in
  NoDup (map Old.line_num items)
  /\ Forall (fun item => Old.line_num item < length lines) items
  /\ Forall (unit_ok lines) items.
Proof.
  cbv zeta. split; [apply process_multiline_statements_NoDup |].
  split; [apply process_multiline_statements_bound |].
  apply process_multiline_statements_units.
Qed.

(** The outcome of a pass depends on the state it starts in only through
    the base namespace and the precision: nothing of a previous pass is
    merged into [line_results] or [variables]. *)
Theorem pass_replaces_previous_results (rt : Python) (text : string) :
  (forall a b : Current.calculator,
     Current.base_namespace a = Current.base_namespace b ->
     Current.decimal_precision a = Current.decimal_precision b ->
     Current.recalculate_changed_lines a text
     = Current.recalculate_changed_lines b text)
  /\ (forall a b : Old.calculator,
        Old.base_namespace a = Old.base_namespace b ->
        Old.decimal_precision a = Old.decimal_precision b ->
        same_engine (Old.recalculate_changed_lines a text)
          (Old.recalculate_changed_lines b text)).
Proof.
  split; intros a b Hbase Hprec.
  - unfold Current.recalculate_changed_lines, Current.recalculate_lines,
      Current.reset. rewrite Hbase, Hprec. reflexivity.
  - unfold Old.recalculate_changed_lines, Old.recalculate_lines.
    apply run_statements_same_engine, reset_same_engine; assumption.
Qed.

(** The theorem at two calculators with different leftovers. *)
Lemma pass_replaces_previous_results_witness :
  Current.recalculate_changed_lines (H := MiniPython.runtime) current_with_x
    (document ["x + 1"])
  = Current.recalculate_changed_lines (H := MiniPython.runtime) fresh_current
      (document ["x + 1"]).
Proof.
  destruct (pass_replaces_previous_results MiniPython.runtime (document ["x + 1"]))
    as [Hcurrent _].
  apply Hcurrent; reflexivity.
Defined.

(** [line_results] has entries only at line numbers of the document. *)
Theorem entries_within_document (rt : Python) (text : string) (j : nat) :
  length (PyStr.split PyStr.newline text) <= j ->
  (forall s : Current.calculator,
     Current.line_results (Current.recalculate_changed_lines s text) !! j = None)
  /\ (forall s : Old.calculator,
        Old.line_results (Old.recalculate_changed_lines s text) !! j = None).
Proof.
  intros Hj. split; intros s.
  - unfold Current.recalculate_changed_lines, Current.recalculate_lines.
    rewrite run_lines_other by lia. reflexivity.
  - unfold Old.recalculate_changed_lines, Old.recalculate_lines.
    rewrite run_statements_other; [reflexivity |].
    intros Hin. apply list_elem_of_fmap in Hin as (item & Heq & Hitem).
    pose proof (process_multiline_statements_bound
                  (PyStr.split PyStr.newline text)) as Hbound.
    rewrite Forall_forall in Hbound. specialize (Hbound item Hitem). lia.
Qed.

(** The theorem at a two-line document and the line number 2. *)
Lemma entries_within_document_witness :
  Current.line_results
    (Current.recalculate_changed_lines (H := MiniPython.runtime) fresh_current
       (document ["1 + 1"; "2 * 3"])) !! 2 = None.
Proof.
  destruct (entries_within_document MiniPython.runtime
              (document ["1 + 1"; "2 * 3"]) 2) as [Hcurrent _].
  - vm_compute. lia.
  - apply Hcurrent.
Defined.

(* ===================================================================== *)
(** ** Strings, continued *)
(* ===================================================================== *)

Lemma append_cons (c : ascii) (s t : string) :
  String c s +:+ t = String c (s +:+ t).
Proof. reflexivity. Qed.

Lemma length_append (s t : string) :
  String.length (s +:+ t) = String.length s + String.length t.
Proof.
  induction s as [| c s IH].
  - reflexivity.
  - rewrite append_cons. simpl. rewrite IH. reflexivity.
Qed.

Lemma length_take_string (n : nat) (s : string) :
  String.length (PyStr.take n s) = Nat.min n (String.length s).
Proof.
  revert s. induction n as [| n IH]; intros [| c s]; simpl; try reflexivity.
  rewrite IH. reflexivity.
Qed.

(* ===================================================================== *)
(** ** The results beside the lines *)
(* ===================================================================== *)

Lemma update_inline_results_lookup (results editor : gmap nat string) :
  forall n,
    update_inline_results results editor !! S n = results !! n
    /\ update_inline_results results editor !! 0 = None.
Proof.
  unfold update_inline_results.
  apply (map_fold_weak_ind
           (fun (r : gmap nat string) (m : gmap nat string) =>
              forall n, r !! S n = m !! n /\ r !! 0 = None)).
  - intros n. unfold CodeEditor.clear_line_results.
    rewrite !lookup_empty. split; reflexivity.
  - intros i x m r _ IH n. unfold CodeEditor.set_line_result.
    replace (i + 1) with (S i) by lia. split.
    + destruct (Nat.eq_dec i n) as [-> | Hne].
      * rewrite !lookup_insert_eq. reflexivity.
      * rewrite !lookup_insert_ne by congruence. apply IH.
    + rewrite lookup_insert_ne by discriminate. apply (IH 0).
Qed.

(** X5. After [update_inline_results], what the editor draws beside a
    visible block with room for it is [" = "] followed by the calculator's
    entry for that line number, and nothing where the calculator has no
    entry, whatever the editor showed before; the editor's entry 0, which no
    block reads, stays unset. *)
Theorem inline_results_shifted (results editor : gmap nat string)
    (block_number : nat) :
  CodeEditor.drawn_text (update_inline_results results editor) block_number true true
  = (fun result => " = " +:+ result) <$> results !! block_number
  /\ update_inline_results results editor !! 0 = None.
Proof.
  destruct (update_inline_results_lookup results editor block_number)
    as [Hshift Hzero].
  split; [| exact Hzero].
  unfold CodeEditor.drawn_text.
  replace (block_number + 1) with (S block_number) by lia.
  rewrite Hshift. destruct (results !! block_number); reflexivity.
Qed.

(* ===================================================================== *)
(** ** The width of the line number area *)
(* ===================================================================== *)

Lemma count_digits_spec (fuel : nat) :
  forall max_block digits,
    1 <= max_block -> max_block <= fuel ->
    exists k,
      CodeEditor.count_digits fuel max_block digits = Some (digits + k)
      /\ 10 ^ k <= max_block < 10 ^ S k.
Proof.
  induction fuel as [| fuel IH]; intros max_block digits Hpos Hfuel; [lia |].
  cbn [CodeEditor.count_digits].
  destruct (10 <=? max_block)%nat eqn:Hten.
  - apply Nat.leb_le in Hten.
    pose proof (Nat.div_mod_eq max_block 10) as Hdiv.
    pose proof (Nat.mod_upper_bound max_block 10 ltac:(lia)) as Hmod.
    destruct (IH (max_block / 10) (S digits)) as (k & Hcount & Hlow & Hhigh);
      [lia | lia |].
    exists (S k). split.
    + rewrite Hcount. f_equal. lia.
    + rewrite !Nat.pow_succ_r' in *. lia.
  - apply Nat.leb_gt in Hten. exists 0. split.
    + f_equal. lia.
    + simpl. lia.
Qed.

(** X6. The loop of [line_number_area_width] ends, and the width it
    returns is 10 plus the advance of a digit times the number of decimal
    digits of the block count (of 1 when the count is 0). *)
Theorem line_number_area_width_digits (block_count advance extra : nat) :
  exists digits,
    CodeEditor.line_number_area_width (S (block_count + extra)) block_count advance
    = Some (10 + advance * digits)
    /\ 10 ^ (digits - 1) <= Nat.max 1 block_count < 10 ^ digits.
Proof.
  destruct (count_digits_spec (S (block_count + extra)) (Nat.max 1 block_count) 1)
    as (k & Hcount & Hrange); [lia | lia |].
  exists (S k). unfold CodeEditor.line_number_area_width.
  rewrite Hcount. split; [reflexivity |].
  replace (S k - 1) with k by lia. exact Hrange.
Qed.

(* ===================================================================== *)
(** ** The history panel *)
(* ===================================================================== *)

Lemma display_text_length (expression result : string) :
  String.length (HistoryPanel.display_text expression result) <= 60.
Proof.
  unfold HistoryPanel.display_text. cbv zeta.
  destruct (60 <? String.length (expression +:+ " = " +:+ result))%nat eqn:Hlong.
  - apply Nat.ltb_lt in Hlong.
    rewrite length_append, length_take_string, Nat.min_l by lia.
    simpl. lia.
  - apply Nat.ltb_ge in Hlong. exact Hlong.
Qed.

Lemma add_calculations_snoc (p : HistoryPanel.panel)
    (calls : list (string * string * Z)) (expression result : string)
    (timestamp : Z) :
  HistoryPanel.add_calculations p (calls ++ [(expression, result, timestamp)])
  = HistoryPanel.add_calculation (HistoryPanel.add_calculations p calls)
      expression result timestamp.
Proof.
  unfold HistoryPanel.add_calculations. rewrite fold_left_app. reflexivity.
Qed.

Lemma tail_fmap {A B : Type} (f : A -> B) (l : list A) :
  tail (map f l) = map f (tail l).
Proof. destruct l; reflexivity. Qed.

Lemma add_calculations_history (p : HistoryPanel.panel)
    (calls : list (string * string * Z)) :
  let q := HistoryPanel.add_calculations (HistoryPanel.clear_history p) calls in
  HistoryPanel.history q = drop (length calls - 100) (map history_item_of calls)
  /\ HistoryPanel.history_list q = map history_row (HistoryPanel.history q).
Proof.
  cbv zeta. induction calls as [| [[expression result] timestamp] calls IH]
    using rev_ind.
  - split; reflexivity.
  - destruct IH as [Hhistory Hrows]. rewrite add_calculations_snoc.
    set (q := HistoryPanel.add_calculations (HistoryPanel.clear_history p) calls)
      in *.
    set (item := {| HistoryPanel.expression := expression;
                    HistoryPanel.result := result;
                    HistoryPanel.timestamp := timestamp |}).
    assert (Hlen : length (HistoryPanel.history q)
                   = length calls - (length calls - 100)).
    { rewrite Hhistory, length_drop, length_map. reflexivity. }
    assert (Hnew : HistoryPanel.history_list q
                     ++ [(HistoryPanel.display_text expression result, item)]
                   = map history_row (HistoryPanel.history q ++ [item])).
    { rewrite map_app, Hrows. reflexivity. }
    unfold HistoryPanel.add_calculation. cbv zeta. fold item.
    rewrite Hnew, length_map, !length_app, Hlen. simpl length.
    rewrite (map_app history_item_of).
    change (map history_item_of [(expression, result, timestamp)]) with [item].
    destruct (100 <? length calls - (length calls - 100) + 1)%nat eqn:Hfull;
      cbn [HistoryPanel.history HistoryPanel.history_list].
    + apply Nat.ltb_lt in Hfull. split; [| apply tail_fmap].
      rewrite Hhistory.
      rewrite <- (drop_app_le _ [item]) by (rewrite length_map; lia).
      change (tail ?l) with (drop 1 l). rewrite drop_drop.
      f_equal. lia.
    + apply Nat.ltb_ge in Hfull. split; [| reflexivity].
      rewrite Hhistory.
      replace (length calls - 100) with 0 by lia.
      replace (length calls + 1 - 100) with 0 by lia. reflexivity.
Qed.

(** X7. Whatever the panel held, after [clear_history] and any sequence of
    [add_calculation] calls the panel holds the last 100 calls in order (all
    of them when there are fewer), the rows of the list are the rows of the
    kept items, and no row text is longer than 60 characters. *)
Theorem history_keeps_last_hundred (p : HistoryPanel.panel)
    (calls : list (string * string * Z)) :
  let q := HistoryPanel.add_calculations (HistoryPanel.clear_history p) calls in
  HistoryPanel.history q = drop (length calls - 100) (map history_item_of calls)
  /\ HistoryPanel.history_list q = map history_row (HistoryPanel.history q)
  /\ length (HistoryPanel.history q) <= 100
  /\ Forall (fun row => String.length (fst row) <= 60) (HistoryPanel.history_list q).
Proof.
  cbv zeta. destruct (add_calculations_history p calls) as [Hhistory Hrows].
  split; [exact Hhistory |]. split; [exact Hrows |]. split.
  - rewrite Hhistory, length_drop, length_map. lia.
  - rewrite Hrows. apply Forall_forall. intros row Hrow.
    apply list_elem_of_fmap in Hrow as (item & -> & _).
    apply display_text_length.
Qed.

(* ===================================================================== *)
(** ** The list of recent files *)
(* ===================================================================== *)

Lemma save_recent_files_short (files_list : list string) :
  length files_list <= 10 -> Recent.save_recent_files files_list = files_list.
Proof.
  intros Hlen. unfold Recent.save_recent_files.
  destruct (10 <? length files_list)%nat eqn:Hlong; [| reflexivity].
  apply Nat.ltb_lt in Hlong. lia.
Qed.

Lemma replace_recent_files_ok (recent : list string) :
  NoDup recent -> length recent <= 10 ->
  recent_ok (Recent.replace_recent_files recent).
Proof.
  intros Hnd Hlen. unfold recent_ok, Recent.replace_recent_files. simpl.
  repeat split; [exact Hnd | exact Hlen |].
  apply save_recent_files_short. exact Hlen.
Qed.

Lemma filter_absent (x : string) (l : list string) :
  x ∉ l -> filter (fun y => y <> x) l = l.
Proof.
  induction l as [| y l IH]; intros Hx; [reflexivity |].
  apply not_elem_of_cons in Hx as [Hne Hx].
  rewrite filter_cons_True by congruence. rewrite IH by exact Hx. reflexivity.
Qed.

(** [list.remove] on a list without repetitions removes the path. *)
Lemma remove_filter (x : string) (l : list string) :
  NoDup l -> Recent.remove x l = filter (fun y => y <> x) l.
Proof.
  induction 1 as [| y l Hy Hnd IH]; [reflexivity |].
  simpl. destruct (String.eqb y x) eqn:Heq.
  - apply String.eqb_eq in Heq. subst y.
    rewrite filter_cons_False by (intros Hne; apply Hne; reflexivity).
    symmetry. apply filter_absent. exact Hy.
  - apply String.eqb_neq in Heq.
    rewrite filter_cons_True by exact Heq. rewrite IH. reflexivity.
Qed.

Lemma remove_absent (x : string) (l : list string) :
  x ∉ l -> Recent.remove x l = l.
Proof.
  induction l as [| y l IH]; intros Hx; [reflexivity |].
  apply not_elem_of_cons in Hx as [Hne Hx]. simpl.
  destruct (String.eqb y x) eqn:Heq.
  - apply String.eqb_eq in Heq. congruence.
  - rewrite IH by exact Hx. reflexivity.
Qed.

Lemma front_ok (filepath : string) (recent : list string) :
  NoDup recent -> filepath ∉ recent ->
  recent_ok (Recent.replace_recent_files (take 10 (filepath :: recent))).
Proof.
  intros Hnd Hnew. apply replace_recent_files_ok.
  - eapply sublist_NoDup; [| apply sublist_take].
    apply NoDup_cons. split; assumption.
  - rewrite length_take. lia.
Qed.

Lemma update_recent_files_ok (s : Recent.files) (filepath : string) :
  recent_ok s -> recent_ok (Recent.update_recent_files s filepath).
Proof.
  intros Hok. unfold Recent.update_recent_files.
  destruct (bool_decide (filepath ∈ Recent.recent_files s)) eqn:Hin; [exact Hok |].
  apply bool_decide_eq_false in Hin.
  apply front_ok; [apply Hok | exact Hin].
Qed.

Lemma save_as_file_ok (s : Recent.files) (chosen : string) (written : bool) :
  recent_ok s -> recent_ok (Recent.save_as_file s chosen written).
Proof.
  intros Hok. unfold Recent.save_as_file.
  destruct (String.eqb chosen ""); [exact Hok |].
  destruct written; [apply update_recent_files_ok |]; exact Hok.
Qed.

(** X8. Saving a document (under its own path or under a chosen one) and
    opening a recent file (found or missing, readable or not) keep the list
    of recent files free of repetitions and at most ten paths long, with the
    stored list and the submenu those of the list: though the list is cut to
    its first ten paths and the store keeps the last ten of what it is
    given, nothing is ever lost between the two. *)
Theorem recent_files_invariant (s : Recent.files) (editor_filepath : option string)
    (chosen filepath : string) (written exists_ opened : bool) :
  recent_ok s ->
  recent_ok (Recent.save_file s editor_filepath chosen written)
  /\ recent_ok (Recent.save_as_file s chosen written)
  /\ recent_ok (Recent.open_recent_file s filepath exists_ opened).
Proof.
  intros Hok. split; [| split].
  - unfold Recent.save_file.
    destruct editor_filepath as [path |]; [| apply save_as_file_ok; exact Hok].
    destruct (String.eqb path ""); [apply save_as_file_ok; exact Hok |].
    destruct written; [apply update_recent_files_ok |]; exact Hok.
  - apply save_as_file_ok; exact Hok.
  - pose proof Hok as (Hnd & Hlen & _).
    unfold Recent.open_recent_file.
    destruct exists_; [destruct opened; [| exact Hok] |].
    + destruct (bool_decide (filepath ∈ Recent.recent_files s)) eqn:Hin.
      * rewrite remove_filter by exact Hnd. apply front_ok.
        -- apply NoDup_filter. exact Hnd.
        -- intros Hfiltered. apply list_elem_of_filter in Hfiltered as [Hne _].
           apply Hne. reflexivity.
      * apply bool_decide_eq_false in Hin. apply front_ok; assumption.
    + destruct (bool_decide (filepath ∈ Recent.recent_files s)); [| exact Hok].
      rewrite remove_filter by exact Hnd. apply replace_recent_files_ok.
      * apply NoDup_filter. exact Hnd.
      * pose proof (length_filter (fun y => y <> filepath) (Recent.recent_files s)).
        lia.
Qed.

(** The theorem from the empty list: a document saved, then a file opened. *)
Lemma recent_files_invariant_witness :
  recent_ok (Recent.save_file no_recent_files (Some "/a/one.calc") "" true)
  /\ recent_ok (Recent.save_as_file no_recent_files "/a/two.calc" true)
  /\ recent_ok (Recent.open_recent_file no_recent_files "/a/one.calc" true true).
Proof.
  apply (recent_files_invariant no_recent_files (Some "/a/one.calc")
           "/a/two.calc" "/a/one.calc" true true true).
  apply replace_recent_files_ok; [constructor | simpl; lia].
Defined.

(** X9. On a list without repetitions, opening a recent file puts its path
    first, keeps the other paths in their order and drops what comes after
    the tenth; a path whose file is gone is taken out of the list, the other
    paths staying in their order; a file that exists but cannot be read
    leaves the list as it is. *)
Theorem open_recent_file_order (s : Recent.files) (filepath : string)
    (opened : bool) :
  NoDup (Recent.recent_files s) ->
  Recent.recent_files (Recent.open_recent_file s filepath true true)
  = take 10 (filepath :: filter (fun other => other <> filepath)
                           (Recent.recent_files s))
  /\ Recent.recent_files (Recent.open_recent_file s filepath false opened)
     = filter (fun other => other <> filepath) (Recent.recent_files s)
  /\ Recent.open_recent_file s filepath true false = s.
Proof.
  intros Hnd. unfold Recent.open_recent_file. split; [| split; [| reflexivity]].
  - destruct (bool_decide (filepath ∈ Recent.recent_files s)) eqn:Hin; simpl.
    + rewrite remove_filter by exact Hnd. reflexivity.
    + apply bool_decide_eq_false in Hin. rewrite filter_absent by exact Hin.
      reflexivity.
  - destruct (bool_decide (filepath ∈ Recent.recent_files s)) eqn:Hin; simpl.
    + apply remove_filter. exact Hnd.
    + apply bool_decide_eq_false in Hin. rewrite filter_absent by exact Hin.
      reflexivity.
Qed.

(** The theorem at a list of two paths, the second of which is opened. *)
Lemma open_recent_file_order_witness :
  Recent.recent_files
    (Recent.open_recent_file (Recent.replace_recent_files ["/a"; "/b"]) "/b"
       true true)
  = ["/b"; "/a"].
Proof.
  destruct (open_recent_file_order (Recent.replace_recent_files ["/a"; "/b"])
              "/b" true) as [Hfront _].
  - simpl. apply NoDup_cons. split; [| apply NoDup_singleton].
    intros Hin. apply list_elem_of_singleton in Hin. discriminate.
  - rewrite Hfront. reflexivity.
Defined.

(* ===================================================================== *)
(** ** The rows of the library of custom functions *)
(* ===================================================================== *)

(** Whether the separator starts at a position of the name only depends on
    the name and on the first character that follows it. *)
Lemma startswith_separator (c : ascii) (name desc : string) :
  PyStr.startswith " - " (String c (name +:+ " - " +:+ desc))
  = PyStr.startswith " - " (String c (name +:+ " ")).
Proof.
  destruct name as [| c2 [| c3 name]].
  - change (PyStr.startswith " - " (String c (String " " (String "-" (String " " desc))))
            = PyStr.startswith " - " (String c (String " " ""))).
    simpl. destruct (Ascii.eqb " " c); reflexivity.
  - change (PyStr.startswith " - "
              (String c (String c2 (String " " (String "-" (String " " desc)))))
            = PyStr.startswith " - " (String c (String c2 (String " " "")))).
    simpl. reflexivity.
  - rewrite !append_cons. simpl. reflexivity.
Qed.

Lemma split_first_cons (sep : string) (c : ascii) (s : string) :
  PyStr.split_first sep (String c s)
  = if PyStr.startswith sep (String c s) then ""
    else String c (PyStr.split_first sep s).
Proof. reflexivity. Qed.

Lemma contains_cons (sub : string) (c : ascii) (s : string) :
  PyStr.contains sub (String c s)
  = PyStr.startswith sub (String c s) || PyStr.contains sub s.
Proof. reflexivity. Qed.

Lemma split_first_described (name desc : string) :
  PyStr.contains " - " (name +:+ " ") = false ->
  PyStr.split_first " - " (name +:+ " - " +:+ desc) = name.
Proof.
  induction name as [| c name IH]; intros Hfree.
  - reflexivity.
  - rewrite append_cons, contains_cons in Hfree.
    apply orb_false_elim in Hfree as [Hstart Hrest].
    rewrite append_cons, split_first_cons, startswith_separator, Hstart.
    rewrite IH by exact Hrest. reflexivity.
Qed.

Lemma split_first_described_shorter (name desc : string) :
  PyStr.contains " - " (name +:+ " ") = true ->
  String.length (PyStr.split_first " - " (name +:+ " - " +:+ desc))
  < String.length name.
Proof.
  induction name as [| c name IH]; intros Hfound.
  - discriminate.
  - rewrite append_cons, contains_cons in Hfound.
    rewrite append_cons, split_first_cons, startswith_separator.
    destruct (PyStr.startswith " - " (String c (name +:+ " "))); simpl in *.
    + lia.
    + specialize (IH Hfound). lia.
Qed.

Lemma split_first_plain (sep name : string) :
  PyStr.contains sep name = false -> PyStr.split_first sep name = name.
Proof.
  induction name as [| c name IH]; intros Hfree.
  - destruct sep; [discriminate | reflexivity].
  - rewrite contains_cons in Hfree.
    apply orb_false_elim in Hfree as [Hstart Hrest].
    rewrite split_first_cons, Hstart, IH by exact Hrest. reflexivity.
Qed.

Lemma split_first_plain_shorter (sep name : string) :
  PyStr.contains sep name = true ->
  sep <> "" ->
  String.length (PyStr.split_first sep name) < String.length name.
Proof.
  intros Hfound Hsep. induction name as [| c name IH].
  - destruct sep; [congruence | discriminate].
  - rewrite contains_cons in Hfound. rewrite split_first_cons.
    destruct (PyStr.startswith sep (String c name)); simpl in *.
    + lia.
    + specialize (IH Hfound). lia.
Qed.

(** X10. The name the library reads back from the row of a function is
    the function's name exactly when the name holds no [" - "] and, for a
    function with a description, does not end with [" -"] either (that is,
    when no [" - "] begins inside the name once a space follows it);
    otherwise what is read back is a shorter text. *)
Theorem selected_name_round_trip (name desc : string) :
  CustomFunctionLibrary.selected_name
    (CustomFunctionLibrary.display_text name desc) = name
  <-> PyStr.contains " - " (if String.eqb desc "" then name else name +:+ " ")
      = false.
Proof.
  unfold CustomFunctionLibrary.selected_name, CustomFunctionLibrary.display_text.
  destruct (String.eqb desc ""); split.
  - intros Hback.
    destruct (PyStr.contains " - " name) eqn:Hfound; [| reflexivity].
    pose proof (split_first_plain_shorter " - " name Hfound ltac:(discriminate))
      as Hshort.
    rewrite Hback in Hshort. lia.
  - apply split_first_plain.
  - intros Hback.
    destruct (PyStr.contains " - " (name +:+ " ")) eqn:Hfound; [| reflexivity].
    pose proof (split_first_described_shorter name desc Hfound) as Hshort.
    rewrite Hback in Hshort. lia.
  - apply split_first_described.
Qed.



(* ===================================================================== *)
(** ** The namespace and the store *)
(* ===================================================================== *)


Section Namespace.

Context {rt : Python}.

Lemma evaluate_line_store (s : Current.calculator) (i : nat) (line name : string) :
  binds name line = false ->
  Current.variables s !! name = None ->
  Current.variables (Current.evaluate_line s i line) !! name = None.
Proof.
  unfold binds, Current.evaluate_line. intros Hbinds Hnone.
  destruct (is_blank_or_comment line); [exact Hnone |].
  destruct (Current.is_assignment line); simpl in Hbinds.
  - destruct (PyStr.split1 "=" line) as [lhs [rhs |]]; [| exact Hnone].
    simpl in Hbinds. apply String.eqb_neq in Hbinds.
    destruct (py_eval (PyStr.strip rhs) (Current.namespace s)); simpl.
    + rewrite lookup_insert_ne by exact Hbinds. exact Hnone.
    + exact Hnone.
  - destruct (py_eval line (Current.namespace s)) as [[] |]; exact Hnone.
Qed.

Lemma run_lines_store (lines : list string) (i : nat) (s : Current.calculator)
    (name : string) :
  Forall (fun line => binds name line = false) lines ->
  Current.variables s !! name = None ->
  Current.variables (Current.run_lines i lines s) !! name = None.
Proof.
  intros Hall. revert i s.
  induction Hall as [| line lines Hline _ IH]; intros i s Hnone; simpl.
  - exact Hnone.
  - apply IH, evaluate_line_store; assumption.
Qed.

Lemma evaluate_statement_store (s : Old.calculator) (item : Old.statement)
    (name : string) :
  leaves_unbound name item ->
  Old.variables s !! name = None ->
  Old.variables (Old.evaluate_statement s item) !! name = None.
Proof.
  unfold leaves_unbound. intros Hleaves Hvars.
  unfold Old.evaluate_statement, Old.execute_multiline_code.
  destruct (is_blank_or_comment (Old.code item)); [exact Hvars |].
  change (Old.namespace (Old.update_namespace s))
    with (Old.variables s ∪ Old.namespace s).
  destruct (Old.is_multiline item).
  - destruct (py_exec (Old.code item) (Old.variables s ∪ Old.namespace s))
      as [local_ns |] eqn:Hexec; [| exact Hvars].
    assert (Hlocal : (local_ns ∪ Old.variables s) !! name = None).
    { apply lookup_union_None. split; [eapply Hleaves; exact Hexec | exact Hvars]. }
    destruct (Old.nonempty (Old.last_line (Old.code item))
              && negb (Old.starts_with_any Old.statement_keywords
                         (Old.last_line (Old.code item)))); [| exact Hlocal].
    destruct (py_eval_in (Old.last_line (Old.code item))
                (Old.variables s ∪ Old.namespace s) local_ns) as [[] |];
      exact Hlocal.
  - destruct (Old.is_assignment (Old.code item)); simpl in Hleaves.
    + destruct (PyStr.split1 "=" (Old.code item)) as [lhs [rhs |]];
        [| exact Hvars].
      simpl in Hleaves. apply String.eqb_neq in Hleaves.
      destruct (py_eval (PyStr.strip rhs) (Old.variables s ∪ Old.namespace s));
        [| exact Hvars].
      unfold Old.record_result, Old.bind, Old.update_namespace.
      cbn [Old.variables].
      rewrite lookup_insert_ne by exact Hleaves. exact Hvars.
    + destruct (py_eval (Old.code item) (Old.variables s ∪ Old.namespace s));
        exact Hvars.
Qed.

Lemma run_statements_store (items : list Old.statement) (s : Old.calculator)
    (name : string) :
  Forall (leaves_unbound name) items ->
  Old.variables s !! name = None ->
  Old.variables (Old.run_statements items s) !! name = None.
Proof.
  intros Hall. unfold Old.run_statements. revert s.
  induction Hall as [| item items Hitem _ IH]; intros s Hvars; simpl.
  - exact Hvars.
  - apply IH, evaluate_statement_store; assumption.
Qed.

(** X17. The store only holds names the document assigns.  In the current
    tree a name that is in the store after a pass is the stripped left-hand
    side of an assignment line of the document, whatever the base namespace
    holds; in the old tree a name that no single assignment line binds and
    no block can yield is not in the store. *)
Theorem store_holds_assigned_names (text name : string) :
  (forall s : Current.calculator,
     is_Some (Current.variables (Current.recalculate_changed_lines s text) !! name) ->
     Exists (fun line => binds name line = true) (PyStr.split PyStr.newline text))
  /\ (forall s : Old.calculator,
        Forall (leaves_unbound name)
          (Old.process_multiline_statements (PyStr.split PyStr.newline text)) ->
        Old.variables (Old.recalculate_changed_lines s text) !! name = None).
Proof.
  split; intros s.
  - intros Hstored.
    destruct (decide (Exists (fun line => binds name line = true)
                        (PyStr.split PyStr.newline text))) as [Hsome | Hnone];
      [exact Hsome | exfalso].
    apply (not_Exists_Forall _) in Hnone.
    assert (Hall : Forall (fun line => binds name line = false)
                     (PyStr.split PyStr.newline text)).
    { eapply Forall_impl; [exact Hnone |]. simpl. intros line Hline.
      apply not_true_is_false. exact Hline. }
    pose proof (run_lines_store (PyStr.split PyStr.newline text) 0
                  (Current.reset s) name Hall (lookup_empty name)) as Hlost.
    unfold Current.recalculate_changed_lines, Current.recalculate_lines in Hstored.
    rewrite Hlost in Hstored. exact (is_Some_None Hstored).
  - intros Hall.
    apply (run_statements_store _ (Old.reset s) name Hall). apply lookup_empty.
Qed.






(* ===================================================================== *)
(** ** The inspector's other commands *)
(* ===================================================================== *)


End Namespace.


(** The theorem at the document [x = 2], whose pass stores [x]. *)
Lemma store_holds_assigned_names_witness :
  Exists (fun line => binds "x" line = true) ["x = 2"].
Proof.
  destruct (store_holds_assigned_names (rt := MiniPython.runtime)
              (document ["x = 2"]) "x") as [Hcurrent _].
  apply (Hcurrent fresh_current). vm_compute. eexists. reflexivity.
Defined.

(* ===================================================================== *)
(** ** The assignment test of the old tree *)
(* ===================================================================== *)






(* ===================================================================== *)
(** ** The segmenter tiles the document *)
(* ===================================================================== *)

Lemma block_text_snoc (ls : list string) (line : string) :
  block_text (ls ++ [line]) = Old.add_line (block_text ls) line.
Proof. unfold block_text. rewrite fold_left_app. reflexivity. Qed.

Lemma block_text_nonempty (ls : list string) :
  Old.nonempty (block_text ls) = negb (length ls =? 0)%nat.
Proof.
  destruct ls as [| line ls _] using rev_ind; [reflexivity |].
  rewrite block_text_snoc, add_line_nonempty, length_app. simpl.
  replace (length ls + 1) with (S (length ls)) by lia. reflexivity.
Qed.

Lemma nonempty_false (text : string) : Old.nonempty text = false -> text = "".
Proof.
  unfold Old.nonempty. intros Hempty. apply negb_false_iff in Hempty.
  apply String.eqb_eq. exact Hempty.
Qed.

Lemma segment_line_covers (lines : list string) (i : nat) (line : string)
    (st : Old.segmenter) :
  lines !! i = Some line ->
  segmenter_covers lines i st ->
  segmenter_covers lines (S i) (Old.segment_line st i line).
Proof.
  intros Hline (j & Hj & Hcov & Hblock & Hstart).
  pose proof (lookup_lt_Some _ _ _ Hline) as Hlen.
  assert (Hpending : Old.nonempty (Old.current_block st) = negb (i - j =? 0)%nat).
  { rewrite Hblock, block_text_nonempty, length_take, length_drop.
    do 2 f_equal. lia. }
  assert (Hnext : Old.add_line (Old.current_block st) line
                  = block_text (take (S i - j) (drop j lines))).
  { rewrite Hblock. replace (S i - j) with (S (i - j)) by lia.
    rewrite (take_S_r _ _ line), block_text_snoc; [reflexivity |].
    rewrite lookup_drop. replace (j + (i - j)) with i by lia. exact Hline. }
  assert (Hsome : Old.nonempty (Old.current_block st) = true -> j < i).
  { intros Hne. rewrite Hpending in Hne.
    apply negb_true_iff, Nat.eqb_neq in Hne. lia. }
  assert (Hflush : Old.nonempty (Old.current_block st) = true ->
                   covers lines i
                     (Old.processed st
                      ++ [Old.block_statement (Old.block_start st)
                            (Old.current_block st)])).
  { intros Hne. apply Hsome in Hne.
    rewrite Hstart, Hblock by lia.
    replace i with (j + (i - j)) at 1 by lia.
    apply covers_block; [exact Hcov | lia | lia]. }
  assert (Hnone : Old.nonempty (Old.current_block st) = false -> j = i).
  { intros Hne. rewrite Hpending in Hne.
    apply negb_false_iff, Nat.eqb_eq in Hne. lia. }
  clear Hpending.
  assert (Hdone : forall items start level,
             covers lines (S i) items ->
             segmenter_covers lines (S i)
               {| Old.processed := items; Old.current_block := "";
                  Old.block_start := start; Old.indent_level := level |}).
  { intros items start level Hitems. exists (S i). simpl.
    split; [lia |]. split; [exact Hitems |].
    rewrite Nat.sub_diag. split; [reflexivity | lia]. }
  unfold Old.segment_line. cbv zeta.
  destruct (String.eqb (PyStr.strip line) "" || PyStr.startswith "#" (PyStr.strip line)).
  - destruct (Old.nonempty (Old.current_block st)) eqn:Hne.
    + exists j. simpl. split; [lia |]. split; [exact Hcov |].
      split; [exact Hnext |]. intros _. apply Hstart, Hsome. reflexivity.
    + pose proof (Hnone eq_refl) as ->.
      rewrite (nonempty_false _ Hne). apply Hdone.
      apply covers_single; assumption.
  - destruct (PyStr.endswith_char ":" (PyStr.strip line)
              || Old.starts_with_any Old.block_keywords (PyStr.strip line)
              || (0 <? Old.indent_level st)%nat).
    + assert (Hbegin : (if Old.nonempty (Old.current_block st)
                        then Old.block_start st else i) = j).
      { destruct (Old.nonempty (Old.current_block st)) eqn:Hne.
        - apply Hstart, Hsome. reflexivity.
        - symmetry. apply Hnone. reflexivity. }
      rewrite Hbegin, Hnext.
      match goal with
      | |- context [if ?closing then _ else _] => destruct closing
      end.
      * apply Hdone. replace (S i) with (j + (S i - j)) at 1 by lia.
        apply covers_block; [exact Hcov | lia | lia].
      * exists j. simpl. split; [lia |]. split; [exact Hcov |].
        split; [reflexivity |]. intros _. reflexivity.
    + apply Hdone. destruct (Old.nonempty (Old.current_block st)) eqn:Hne.
      * apply covers_single; [apply Hflush; reflexivity | exact Hline].
      * pose proof (Hnone eq_refl) as ->. apply covers_single; assumption.
Qed.

Lemma segment_lines_covers (lines rest : list string) :
  forall (before : list string) (st : Old.segmenter),
    lines = before ++ rest ->
    segmenter_covers lines (length before) st ->
    segmenter_covers lines (length lines)
      (Old.segment_lines (length before) rest st).
Proof.
  induction rest as [| line rest IH]; intros before st Hlines Hinv.
  - rewrite Hlines at 2. rewrite app_nil_r. exact Hinv.
  - simpl.
    replace (S (length before)) with (length (before ++ [line]))
      by (rewrite length_app; simpl; lia).
    apply IH.
    + rewrite <- app_assoc. exact Hlines.
    + rewrite length_app. simpl. rewrite Nat.add_1_r.
      apply segment_line_covers; [| exact Hinv].
      rewrite Hlines. apply list_lookup_middle. reflexivity.
Qed.

(** X14. The statements of [process_multiline_statements] tile the
    document: in their order each one starts at the line after the end of
    the one before it, the first at line 0 and the last ending at the last
    line; a single statement is its line as it is and a block is the
    stripped text of its lines, so that no line is dropped and none is
    given to two statements. *)
Theorem segmentation_covers_document (lines : list string) :
  covers lines (length lines) (Old.process_multiline_statements lines).
Proof.
  unfold Old.process_multiline_statements. cbv zeta.
  destruct (segment_lines_covers lines lines []
              {| Old.processed := []; Old.current_block := "";
                 Old.block_start := 0; Old.indent_level := 0 |})
    as (j & Hj & Hcov & Hblock & Hstart).
  { reflexivity. }
  { exists 0. simpl. split; [lia |]. split; [apply covers_nil |].
    split; [reflexivity | lia]. }
  simpl length in *.
  set (st := Old.segment_lines 0 lines _) in *.
  assert (Hpending : Old.nonempty (Old.current_block st)
                     = negb (length lines - j =? 0)%nat).
  { rewrite Hblock, block_text_nonempty, length_take, length_drop.
    do 2 f_equal. lia. }
  destruct (Old.nonempty (Old.current_block st)) eqn:Hne.
  - symmetry in Hpending. apply negb_true_iff, Nat.eqb_neq in Hpending.
    rewrite Hstart, Hblock by lia.
    replace (length lines) with (j + (length lines - j)) at 1 by lia.
    apply covers_block; [exact Hcov | lia | lia].
  - symmetry in Hpending. apply negb_false_iff, Nat.eqb_eq in Hpending.
    replace (length lines) with j by lia. exact Hcov.
Qed.

(* ===================================================================== *)
(** ** Documents without blocks *)
(* ===================================================================== *)

Lemma segment_line_flat (st : Old.segmenter) (i : nat) (line : string) :
  opens_no_block line = true ->
  Old.current_block st = "" ->
  Old.indent_level st = 0 ->
  Old.segment_line st i line
  = {| Old.processed := Old.processed st ++ [Old.single_statement i line];
       Old.current_block := "";
       Old.block_start := Old.block_start st;
       Old.indent_level := 0 |}.
Proof.
  unfold opens_no_block, is_blank_or_comment. cbv zeta.
  intros Hflat Hblock Hlevel. unfold Old.segment_line. cbv zeta.
  rewrite Hblock, Hlevel. revert Hflat.
  destruct (String.eqb (PyStr.strip line) "" || PyStr.startswith "#" (PyStr.strip line)).
  - reflexivity.
  - rewrite orb_false_l. intros Hflat.
    apply negb_true_iff in Hflat. rewrite Hflat. reflexivity.
Qed.

Lemma segment_lines_flat (lines : list string) :
  forall (i : nat) (st : Old.segmenter),
    Forall (fun line => opens_no_block line = true) lines ->
    Old.current_block st = "" ->
    Old.indent_level st = 0 ->
    Old.processed (Old.segment_lines i lines st)
    = Old.processed st ++ imap (fun k => Old.single_statement (i + k)) lines
    /\ Old.current_block (Old.segment_lines i lines st) = "".
Proof.
  induction lines as [| line lines IH]; intros i st Hflat Hblock Hlevel.
  - simpl. rewrite app_nil_r. split; [reflexivity | exact Hblock].
  - apply Forall_cons in Hflat as [Hline Hflat]. simpl Old.segment_lines.
    rewrite (segment_line_flat st i line Hline Hblock Hlevel).
    destruct (IH (S i)
                {| Old.processed := Old.processed st ++ [Old.single_statement i line];
                   Old.current_block := ""; Old.block_start := Old.block_start st;
                   Old.indent_level := 0 |} Hflat eq_refl eq_refl)
      as [Hprocessed Hpending].
    split; [| exact Hpending].
    rewrite Hprocessed. simpl. rewrite <- app_assoc. simpl.
    rewrite Nat.add_0_r. do 2 f_equal.
    apply imap_ext. intros k x _. simpl. f_equal. lia.
Qed.

(** X16. In a document none of whose lines ends with a colon or starts
    with a block keyword (blank lines and comments apart), the segmenter
    makes every line a single statement of its own, numbered by its
    position: no blocks are formed. *)
Theorem flat_document_units (lines : list string) :
  Forall (fun line => opens_no_block line = true) lines ->
  Old.process_multiline_statements lines = imap Old.single_statement lines.
Proof.
  intros Hflat. unfold Old.process_multiline_statements. cbv zeta.
  destruct (segment_lines_flat lines 0
              {| Old.processed := []; Old.current_block := "";
                 Old.block_start := 0; Old.indent_level := 0 |}
              Hflat eq_refl eq_refl) as [Hprocessed Hpending].
  rewrite Hpending, Hprocessed. reflexivity.
Qed.

(** The theorem at a document of three lines, one of them blank. *)
Lemma flat_document_units_witness :
  Old.process_multiline_statements ["x = 2"; ""; "y = x + 3"]
  = [Old.single_statement 0 "x = 2"; Old.single_statement 1 "";
     Old.single_statement 2 "y = x + 3"].
Proof.
  apply (flat_document_units ["x = 2"; ""; "y = x + 3"]).
  repeat constructor.
Defined.

(* ===================================================================== *)
(** ** Where the two trees agree *)
(* ===================================================================== *)



Section Agreement.

Context {rt : Python}.




End Agreement.

